(** * chartjs.util: date ranges and gap-filling value mapping

    A shallow embedding of [src/chartjs/util.py] together with the parts of
    the Python standard library it calls ([datetime.date] arithmetic and
    [datetime.strptime] for the format ["%Y-%m-%d"], on Python strings as
    lists of code points), and the properties of
    [str_to_datetime_date], [date_range] and [value_or_null]. *)

From Stdlib Require Import ZArith List Ascii String Lia Bool.
From stdpp Require Import gmap strings.

Local Open Scope Z_scope.

(** ** Exceptions and results *)

(** The exceptions that can leave the functions of [util.py].
    [ValueError] comes from [strptime] and from the [date] constructor,
    [OverflowError] from [date.__add__], [KeyError] from the subscript on
    [vars(...)], [TypeError] from [vars(None)]; [DatabaseError] stands for
    whatever the queryset raises. *)
Inductive exn : Type :=
| ValueError
| OverflowError
| TypeError
| KeyError (key : string)
| DatabaseError (msg : string).

Inductive result (A : Type) : Type :=
| Ok (a : A)
| Err (e : exn).
Arguments Ok {A} a.
Arguments Err {A} e.

Definition bind {A B : Type} (r : result A) (f : A -> result B) : result B :=
  match r with
  | Ok a => f a
  | Err e => Err e
  end.

(** A generator, observed by a consumer that runs it to the end: the values
    it yields, in order, finished by a normal return or by an exception. *)
Inductive gen (A : Type) : Type :=
| Done
| Raise (e : exn)
| Yield (a : A) (rest : gen A).
Arguments Done {A}.
Arguments Raise {A} e.
Arguments Yield {A} a rest.

Fixpoint yields {A : Type} (g : gen A) : list A :=
  match g with
  | Done | Raise _ => []
  | Yield a rest => a :: yields rest
  end.

Fixpoint outcome {A : Type} (g : gen A) : option exn :=
  match g with
  | Done => None
  | Raise e => Some e
  | Yield _ rest => outcome rest
  end.

(** ** datetime: the proleptic Gregorian calendar *)

Module Calendar.

Definition MINYEAR : Z := 1.
Definition MAXYEAR : Z := 9999.
Definition _MAXORDINAL : Z := 3652059.

(** The tables are indexed by month; index 0 holds the placeholder -1. *)
Definition _DAYS_IN_MONTH : list Z :=
  [-1; 31; 28; 31; 30; 31; 30; 31; 31; 30; 31; 30; 31].

Definition _DAYS_BEFORE_MONTH : list Z :=
  fst (fold_left (fun '(acc, dbm) dim => (acc ++ [dbm], dbm + dim))
                 (tl _DAYS_IN_MONTH) ([-1], 0)).

(** [table[month]] for a month in 1..12, the only indices the callers use. *)
Definition index (table : list Z) (i : Z) : Z := nth (Z.to_nat i) table 0.

Definition _is_leap (year : Z) : bool :=
  (year mod 4 =? 0) && (negb (year mod 100 =? 0) || (year mod 400 =? 0)).

Definition _days_before_year (year : Z) : Z :=
  let y := year - 1 in
  y * 365 + y / 4 - y / 100 + y / 400.

Definition _days_in_month (year month : Z) : Z :=
  if (month =? 2) && _is_leap year then 29
  else index _DAYS_IN_MONTH month.

Definition _days_before_month (year month : Z) : Z :=
  index _DAYS_BEFORE_MONTH month + Z.b2z ((2 <? month) && _is_leap year).

Definition _ymd2ord (year month day : Z) : Z :=
  _days_before_year year + _days_before_month year month + day.

Definition _DI400Y : Z := _days_before_year 401.
Definition _DI100Y : Z := _days_before_year 101.
Definition _DI4Y : Z := _days_before_year 5.

Definition _ord2ymd (n : Z) : Z * Z * Z :=
  let n := n - 1 in
  let n400 := n / _DI400Y in
  let n := n mod _DI400Y in
  let year := n400 * 400 + 1 in
  let n100 := n / _DI100Y in
  let n := n mod _DI100Y in
  let n4 := n / _DI4Y in
  let n := n mod _DI4Y in
  let n1 := n / 365 in
  let n := n mod 365 in
  let year := year + (n100 * 100 + n4 * 4 + n1) in
  if (n1 =? 4) || (n100 =? 4) then (year - 1, 12, 31)
  else
    let leapyear := (n1 =? 3) && (negb (n4 =? 24) || (n100 =? 3)) in
    let month := Z.shiftr (n + 50) 5 in
    let preceding :=
      index _DAYS_BEFORE_MONTH month + Z.b2z ((2 <? month) && leapyear) in
    let '(month, preceding) :=
      if n <? preceding then
        (month - 1,
         preceding - (index _DAYS_IN_MONTH (month - 1)
                      + Z.b2z ((month - 1 =? 2) && leapyear)))
      else (month, preceding) in
    let n := n - preceding in
    (year, month, n + 1).

(** [datetime.date]: the three fields; the constructor admits only the
    triples that pass [_check_date_fields]. *)
Record date : Type := mkdate { year : Z; month : Z; day : Z }.

Definition valid_date (d : date) : bool :=
  (MINYEAR <=? year d) && (year d <=? MAXYEAR)
  && (1 <=? month d) && (month d <=? 12)
  && (1 <=? day d) && (day d <=? _days_in_month (year d) (month d)).

(** [date(year, month, day)] *)
Definition date_new (y m d : Z) : result date :=
  if negb ((MINYEAR <=? y) && (y <=? MAXYEAR)) then Err ValueError
  else if negb ((1 <=? m) && (m <=? 12)) then Err ValueError
  else if negb ((1 <=? d) && (d <=? _days_in_month y m)) then Err ValueError
  else Ok (mkdate y m d).

Definition toordinal (d : date) : Z := _ymd2ord (year d) (month d) (day d).

Definition fromordinal (n : Z) : result date :=
  let '(y, m, d) := _ord2ymd n in date_new y m d.

(** [self + timedelta(days)] *)
Definition date_add (self : date) (days : Z) : result date :=
  let o := toordinal self + days in
  if (0 <? o) && (o <=? _MAXORDINAL) then fromordinal o
  else Err OverflowError.

(** [(self - other).days] *)
Definition date_sub_days (self other : date) : Z :=
  toordinal self - toordinal other.

(** [_cmp((y, m, d), (y2, m2, d2))]: tuples compare lexicographically. *)
Definition _cmp (self other : date) : comparison :=
  match year self ?= year other with
  | Eq => match month self ?= month other with
          | Eq => day self ?= day other
          | c => c
          end
  | c => c
  end.

Definition date_lt (self other : date) : bool :=
  match _cmp self other with Lt => true | _ => false end.

Definition date_le (self other : date) : bool :=
  match _cmp self other with Gt => false | _ => true end.

End Calendar.
Import Calendar.

(** ** _strptime: parsing with the format ["%Y-%m-%d"] *)

Module Strptime.

(** A Python [str] is the list of its code points. [chr] is the code point
    of a character written in ASCII, [py] the [str] of an ASCII literal. *)
Definition chr (c : ascii) : Z := Z.of_nat (nat_of_ascii c).

Definition py (s : string) : list Z := map chr (list_ascii_of_string s).

(** The decimal digits of Unicode 14.0 (the table of Python 3.11) come in
    runs of ten consecutive code points with the values 0 to 9; these are
    the code points of the zeros: ASCII, Arabic-Indic, ..., fullwidth
    (65296), ... *)
Definition decimal_zeros : list Z :=
  [48; 1632; 1776; 1984; 2406; 2534; 2662; 2790; 2918; 3046; 3174; 3302;
   3430; 3558; 3664; 3792; 3872; 4160; 4240; 6112; 6160; 6470; 6608; 6784;
   6800; 6992; 7088; 7232; 7248; 42528; 43216; 43264; 43472; 43504; 43600;
   44016; 65296; 66720; 68912; 69734; 69872; 69942; 70096; 70384; 70736;
   70864; 71248; 71360; 71472; 71904; 72016; 72784; 73040; 73120; 92768;
   92864; 93008; 120782; 120792; 120802; 120812; 120822; 123200; 123632;
   125264; 130032].

(** The value of a decimal digit, [None] for any other character. *)
Definition decimal_value (c : Z) : option Z :=
  match List.find (fun zero => (zero <=? c) && (c <? zero + 10)) decimal_zeros with
  | Some zero => Some (c - zero)
  | None => None
  end.

(** [\d] in a [str] pattern compiled without [re.ASCII]: every Unicode
    decimal digit. *)
Definition is_digit (c : Z) : bool :=
  match decimal_value c with
  | Some _ => true
  | None => false
  end.

Definition in_range (lo hi c : Z) : bool := (lo <=? c) && (c <=? hi).

(** The fragment of regular expressions that [TimeRE] produces for the
    directives [%Y], [%m] and [%d]. The pattern is compiled with
    [IGNORECASE], which changes nothing for digits, the hyphen and the
    space: they have no other case. *)
Inductive regex : Type :=
| Lit (c : Z)                          (* a literal character *)
| Digit                                (* \d *)
| Range (lo hi : Z)                    (* [lo-hi] *)
| Seq (r1 r2 : regex)
| Alt (r1 r2 : regex)                  (* r1|r2, r1 tried first *)
| Group (name : string) (r : regex).   (* (?P<name>r) *)

(** Backtracking matcher, anchored at the start of [s] as [re.match] is.
    [k] is the rest of the pattern; a group records the text it spans. *)
Fixpoint rmatch {R : Type} (r : regex) (s : list Z) (gd : gmap string (list Z))
    (k : list Z -> gmap string (list Z) -> option R) : option R :=
  match r with
  | Lit c =>
      match s with
      | c' :: s' => if c =? c' then k s' gd else None
      | [] => None
      end
  | Digit =>
      match s with
      | c' :: s' => if is_digit c' then k s' gd else None
      | [] => None
      end
  | Range lo hi =>
      match s with
      | c' :: s' => if in_range lo hi c' then k s' gd else None
      | [] => None
      end
  | Seq r1 r2 => rmatch r1 s gd (fun s' gd' => rmatch r2 s' gd' k)
  | Alt r1 r2 =>
      match rmatch r1 s gd k with
      | Some res => Some res
      | None => rmatch r2 s gd k
      end
  | Group name r =>
      rmatch r s gd (fun s' gd' =>
        k s' (<[name := take (length s - length s') s]> gd'))
  end.

(** [found = format_regex.match(data_string)]: the group dictionary and
    [found.end()]. *)
Definition re_match (r : regex) (data_string : list Z)
    : option (gmap string (list Z) * nat) :=
  rmatch r data_string ∅
    (fun s' gd => Some (gd, (length data_string - length s')%nat)).

(** ['Y': r"(?P<Y>\d\d\d\d)"] *)
Definition re_Y : regex :=
  Group "Y" (Seq Digit (Seq Digit (Seq Digit Digit))).

(** ['m': r"(?P<m>1[0-2]|0[1-9]|[1-9])"] *)
Definition re_m : regex :=
  Group "m" (Alt (Seq (Lit (chr "1")) (Range (chr "0") (chr "2")))
            (Alt (Seq (Lit (chr "0")) (Range (chr "1") (chr "9")))
                 (Range (chr "1") (chr "9")))).

(** ['d': r"(?P<d>3[0-1]|[1-2]\d|0[1-9]|[1-9]| [1-9])"] *)
Definition re_d : regex :=
  Group "d" (Alt (Seq (Lit (chr "3")) (Range (chr "0") (chr "1")))
            (Alt (Seq (Range (chr "1") (chr "2")) Digit)
            (Alt (Seq (Lit (chr "0")) (Range (chr "1") (chr "9")))
            (Alt (Range (chr "1") (chr "9"))
                 (Seq (Lit (chr " ")) (Range (chr "1") (chr "9"))))))).

(** The compiled pattern of ["%Y-%m-%d"]: each directive is replaced by
    its regex, the hyphens stand for themselves. *)
Definition format_regex : regex :=
  Seq re_Y (Seq (Lit (chr "-")) (Seq re_m (Seq (Lit (chr "-")) re_d))).

(** [str.isspace]: the white space that [int()] strips. *)
Definition is_space (c : Z) : bool :=
  in_range 9 13 c || in_range 28 32 c || (c =? 133) || (c =? 160)
  || (c =? 5760) || in_range 8192 8202 c || (c =? 8232) || (c =? 8233)
  || (c =? 8239) || (c =? 8287) || (c =? 12288).

Fixpoint lstrip (s : list Z) : list Z :=
  match s with
  | c :: s' => if is_space c then lstrip s' else s
  | [] => []
  end.

Fixpoint digits_value (s : list Z) (acc : Z) : option Z :=
  match s with
  | [] => Some acc
  | c :: s' =>
      match decimal_value c with
      | Some v => digits_value s' (10 * acc + v)
      | None => None
      end
  end.

(** [int(text)] on the texts a group can capture: optional leading
    white space, then decimal digits. *)
Definition py_int (text : list Z) : result Z :=
  match lstrip text with
  | [] => Err ValueError
  | t => match digits_value t 0 with
         | Some z => Ok z
         | None => Err ValueError
         end
  end.

(** The value of a directive's group, or the default that [_strptime]
    starts from when the group is not in [found_dict]. *)
Definition group_int (found_dict : gmap string (list Z)) (key : string)
    (default : Z) : result Z :=
  match found_dict !! key with
  | Some text => py_int text
  | None => Ok default
  end.

(** [_strptime(data_string, "%Y-%m-%d")], reduced to the year, month and
    day of its result; [datetime_date(year, month, day)] is built to
    compute the Julian day and the weekday, and raises on a date that
    does not exist. *)
Definition _strptime (data_string : list Z) : result (Z * Z * Z) :=
  match re_match format_regex data_string with
  | None => Err ValueError
  | Some (found_dict, end_) =>
      if negb (length data_string =? end_)%nat then Err ValueError
      else
        bind (group_int found_dict "Y" 1900) (fun year =>
        bind (group_int found_dict "m" 1) (fun month =>
        bind (group_int found_dict "d" 1) (fun day =>
        bind (date_new year month day) (fun _ =>
        Ok (year, month, day)))))
  end.

(** [datetime.datetime.strptime(data_string, "%Y-%m-%d").date()] *)
Definition strptime_date (data_string : list Z) : result date :=
  bind (_strptime data_string) (fun '(year, month, day) =>
  date_new year month day).

End Strptime.
Import Strptime.

(** ** chartjs/util.py *)

(** A record of the queryset, seen through [vars(record)]. Values are the
    Python objects the functions pass around. *)
Inductive pyval : Type :=
| PyNone
| PyInt (z : Z)
| PyFloat (bits : Z)
| PyStr (s : string).

(** The queryset: [filter] on the keyword dictionary [query] returns the matching records or raises. *)
Record QuerySet : Type := {
  qs_filter : gmap string Z -> result (list (gmap string pyval))
}.

(** [items.count()] *)
Definition count (items : list (gmap string pyval)) : Z :=
  Z.of_nat (List.length items).

(** [items.first()]: the first record, [None] when there is none. *)
Definition first (items : list (gmap string pyval)) : option (gmap string pyval) :=
  head items.

(** [vars(obj)[key]] *)
Definition vars_getitem (obj : option (gmap string pyval)) (key : string)
    : result pyval :=
  match obj with
  | None => Err TypeError
  | Some attrs =>
      match attrs !! key with
      | Some v => Ok v
      | None => Err (KeyError key)
      end
  end.

(** A date argument: a ['yyyy-mm-dd'] string or a [datetime.date]. *)
Inductive DateSpec : Type :=
| Str (s : list Z)
| Date (d : date).

Definition str_to_datetime_date (datestr : list Z) : result date :=
  strptime_date datestr.

(** [if type(x) == str: x = str_to_datetime_date(x)] *)
Definition as_date (x : DateSpec) : result date :=
  match x with
  | Str s => str_to_datetime_date s
  | Date d => Ok d
  end.

(** [range(n)] *)
Definition range (n : Z) : list Z := map Z.of_nat (seq 0 (Z.to_nat n)).

(** [for days in ...: yield start_date + datetime.timedelta(days)] *)
Fixpoint date_range_loop (start_date : date) (days : list Z) : gen date :=
  match days with
  | [] => Done
  | n :: rest =>
      match date_add start_date n with
      | Ok d => Yield d (date_range_loop start_date rest)
      | Err e => Raise e
      end
  end.

Definition date_range (start_date end_date : DateSpec) (inclusive : bool)
    : gen date :=
  match as_date start_date with
  | Err e => Raise e
  | Ok start_date =>
      match as_date end_date with
      | Err e => Raise e
      | Ok end_date =>
          let number_of_days := date_sub_days end_date start_date in
          let number_of_days :=
            if inclusive then number_of_days + 1 else number_of_days in
          date_range_loop start_date (range number_of_days)
      end
  end.

Definition NULL : pyval := PyStr "null".

(** The body of the loop of [value_or_null] over the dates that
    [date_range] yields. *)
Fixpoint value_or_null_loop (dates : gen date) (queryset : QuerySet)
    (date_attr value_attr : string) : gen pyval :=
  match dates with
  | Done => Done
  | Raise e => Raise e
  | Yield new_date rest =>
      let query : gmap string Z :=
        <[date_attr +:+ "__day" := day new_date]>
          (<[date_attr +:+ "__month" := month new_date]>
             (<[date_attr +:+ "__year" := year new_date]> ∅)) in
      match qs_filter queryset query with
      | Err e => Raise e
      | Ok items =>
          if count items =? 1 then
            match vars_getitem (first items) value_attr with
            | Ok v => Yield v (value_or_null_loop rest queryset date_attr value_attr)
            | Err e => Raise e
            end
          else Yield NULL (value_or_null_loop rest queryset date_attr value_attr)
      end
  end.

Definition value_or_null (start_date end_date : DateSpec) (queryset : QuerySet)
    (date_attr value_attr : string) : gen pyval :=
  match as_date start_date with
  | Err e => Raise e
  | Ok start_date =>
      match as_date end_date with
      | Err e => Raise e
      | Ok end_date =>
          value_or_null_loop (date_range (Date start_date) (Date end_date) true)
            queryset date_attr value_attr
      end
  end.


(** ** Definitions used in the statements and proofs *)

(** The month and day that [_ord2ymd] derives from the offset [n] of a day
    within its year. *)
Definition month_day (leapyear : bool) (n : Z) : Z * Z :=
  let month := Z.shiftr (n + 50) 5 in
  let preceding :=
    index _DAYS_BEFORE_MONTH month + Z.b2z ((2 <? month) && leapyear) in
  let '(month, preceding) :=
    if n <? preceding then
      (month - 1,
       preceding - (index _DAYS_IN_MONTH (month - 1)
                    + Z.b2z ((month - 1 =? 2) && leapyear)))
    else (month, preceding) in
  (month, n - preceding + 1).

(** What [_ord2ymd] asserts about that month and day, as a check that can
    be run on every offset of a year. *)
Definition month_day_ok (leapyear : bool) (n : Z) : bool :=
  let '(m, d) := month_day leapyear n in
  (1 <=? m) && (m <=? 12) && (1 <=? d)
  && (d <=? (if (m =? 2) && leapyear then 29 else index _DAYS_IN_MONTH m))
  && (index _DAYS_BEFORE_MONTH m + Z.b2z ((2 <? m) && leapyear) + d =? n + 1).

(** [matches r s gd gd']: the regex [r] matches exactly the text [s], and
    turns the group dictionary [gd] into [gd']. *)
Inductive matches :
  regex -> list Z -> gmap string (list Z) -> gmap string (list Z) -> Prop :=
| matches_lit c gd :
    matches (Lit c) [c] gd gd
| matches_digit c gd :
    is_digit c = true -> matches Digit [c] gd gd
| matches_range lo hi c gd :
    in_range lo hi c = true -> matches (Range lo hi) [c] gd gd
| matches_seq r1 r2 s1 s2 gd gd1 gd2 :
    matches r1 s1 gd gd1 -> matches r2 s2 gd1 gd2 ->
    matches (Seq r1 r2) (s1 ++ s2) gd gd2
| matches_alt_l r1 r2 s gd gd' :
    matches r1 s gd gd' -> matches (Alt r1 r2) s gd gd'
| matches_alt_r r1 r2 s gd gd' :
    matches r2 s gd gd' -> matches (Alt r1 r2) s gd gd'
| matches_group name r s gd gd' :
    matches r s gd gd' -> matches (Group name r) s gd (<[name := s]> gd').

(** The texts the groups of [format_regex] can capture. *)
Definition year_text (Y : list Z) : bool :=
  match Y with
  | [a; b; c; d] => is_digit a && is_digit b && is_digit c && is_digit d
  | _ => false
  end.

Definition month_text (M : list Z) : bool :=
  match M with
  | [a] => in_range (chr "1") (chr "9") a
  | [a; b] =>
      ((a =? chr "1") && in_range (chr "0") (chr "2") b)
      || ((a =? chr "0") && in_range (chr "1") (chr "9") b)
  | _ => false
  end.

Definition day_text (D : list Z) : bool :=
  match D with
  | [a] => in_range (chr "1") (chr "9") a
  | [a; b] =>
      ((a =? chr "3") && in_range (chr "0") (chr "1") b)
      || (in_range (chr "1") (chr "2") a && is_digit b)
      || ((a =? chr "0") && in_range (chr "1") (chr "9") b)
      || ((a =? chr " ") && in_range (chr "1") (chr "9") b)
  | _ => false
  end.

(** A native [datetime.date] satisfies the constructor's checks; a string
    is any string. *)
Definition valid_spec (x : DateSpec) : Prop :=
  match x with
  | Str _ => True
  | Date d => valid_date d = true
  end.

(** The keyword dictionary that [value_or_null] builds for [new_date]. *)
Definition date_query (date_attr : string) (new_date : date) : gmap string Z :=
  <[date_attr +:+ "__day" := day new_date]>
    (<[date_attr +:+ "__month" := month new_date]>
       (<[date_attr +:+ "__year" := year new_date]> ∅)).

(** One turn of the loop of [value_or_null]: the value it yields for
    [new_date], or the exception that ends the generator. *)
Definition lookup_value (queryset : QuerySet) (date_attr value_attr : string)
    (new_date : date) : result pyval :=
  match qs_filter queryset (date_query date_attr new_date) with
  | Err e => Err e
  | Ok items =>
      if count items =? 1 then vars_getitem (first items) value_attr
      else Ok NULL
  end.

(** The spec's words for the accepted input: ten characters, four digits,
    a hyphen, two digits, a hyphen, two digits. *)
Definition strict_yyyy_mm_dd (s : list Z) : bool :=
  match s with
  | [y1; y2; y3; y4; h1; m1; m2; h2; d1; d2] =>
      is_digit y1 && is_digit y2 && is_digit y3 && is_digit y4
      && (h1 =? chr "-") && is_digit m1 && is_digit m2
      && (h2 =? chr "-") && is_digit d1 && is_digit d2
  | _ => false
  end.

(** A queryset over rows held in memory: [filter] keeps the rows whose date
    has the year, month and day asked for under [date_attr]. *)
Definition table_queryset (date_attr : string)
    (rows : list (date * gmap string pyval)) : QuerySet :=
  {| qs_filter query :=
       Ok (map snd
             (List.filter
                (fun row =>
                   bool_decide (query !! (date_attr +:+ "__year") = Some (year (fst row)))
                   && bool_decide (query !! (date_attr +:+ "__month") = Some (month (fst row)))
                   && bool_decide (query !! (date_attr +:+ "__day") = Some (day (fst row))))
                rows)) |}.

(** A queryset whose every [filter] raises. *)
Definition failing_queryset (e : exn) : QuerySet :=
  {| qs_filter _ := Err e |}.

Definition jan_2_record : gmap string pyval :=
  <["value" := PyInt 7]> (<["id" := PyInt 1]> ∅).

Definition jan_2_only : QuerySet :=
  table_queryset "date" [(mkdate 2020 1 2, jan_2_record)].

Definition jan_2_twice : QuerySet :=
  table_queryset "date"
    [(mkdate 2020 1 2, jan_2_record); (mkdate 2020 1 2, jan_2_record)].

(** The ASCII digit [k], for [k] from 0 to 9. *)
Definition digit_char (k : Z) : Z := chr "0" + k.

(** ["%04d"] and ["%02d"] of a number below 10000, below 100. *)
Definition zero_padded_4 (n : Z) : list Z :=
  [digit_char (n / 1000); digit_char (n / 100 mod 10);
   digit_char (n / 10 mod 10); digit_char (n mod 10)].

Definition zero_padded_2 (n : Z) : list Z :=
  [digit_char (n / 10); digit_char (n mod 10)].

(** The zero-padded [yyyy-mm-dd] text of a date, as [date.isoformat()]
    writes it: ["%04d-%02d-%02d" % (year, month, day)]. *)
Definition isoformat (d : date) : list Z :=
  zero_padded_4 (year d) ++ py "-" ++ zero_padded_2 (month d)
  ++ py "-" ++ zero_padded_2 (day d).

(** A month or a day written without a leading zero: ["%d"]. *)
Definition plain_2 (n : Z) : list Z :=
  if n <? 10 then [digit_char n] else zero_padded_2 n.

(** A queryset whose [filter] raises [e] for the dates with the day of the
    month [on_day], and finds nothing for the others. *)
Definition failing_on_day (date_attr : string) (on_day : Z) (e : exn)
    : QuerySet :=
  {| qs_filter query :=
       if bool_decide (query !! (date_attr +:+ "__day") = Some on_day)
       then Err e else Ok [] |}.

(** ** The calendar: ordinals and dates are in bijection *)

Lemma month_day_table (leapyear : bool) :
  forallb (fun k => month_day_ok leapyear (Z.of_nat k))
          (seq 0 (365 + Nat.b2n leapyear)) = true.
Proof. destruct leapyear; vm_compute; reflexivity. Qed.

Lemma month_day_spec (leapyear : bool) (n : Z) :
  0 <= n < 365 + Z.b2z leapyear ->
  month_day_ok leapyear n = true.
Proof.
  intros Hn.
  pose proof (month_day_table leapyear) as H.
  rewrite forallb_forall in H.
  replace n with (Z.of_nat (Z.to_nat n)) by lia.
  apply H. apply in_seq.
  assert (Z.of_nat (Nat.b2n leapyear) = Z.b2z leapyear)
    by (destruct leapyear; reflexivity).
  lia.
Qed.

Lemma ord2ymd_unfold n :
  _ord2ymd n =
    let n0 := n - 1 in
    let n400 := n0 / 146097 in
    let r400 := n0 mod 146097 in
    let n100 := r400 / 36524 in
    let r100 := r400 mod 36524 in
    let n4 := r100 / 1461 in
    let r4 := r100 mod 1461 in
    let n1 := r4 / 365 in
    let r1 := r4 mod 365 in
    let y := n400 * 400 + 1 + (n100 * 100 + n4 * 4 + n1) in
    if (n1 =? 4) || (n100 =? 4) then (y - 1, 12, 31)
    else
      let leapyear := (n1 =? 3) && (negb (n4 =? 24) || (n100 =? 3)) in
      let '(m, d) := month_day leapyear r1 in (y, m, d).
Proof.
  unfold _ord2ymd, month_day.
  change _DI400Y with 146097. change _DI100Y with 36524. change _DI4Y with 1461.
  cbv zeta.
  destruct (orb _ _); [reflexivity|].
  destruct (Z.ltb _ _); reflexivity.
Qed.

Lemma is_leap_split q n100 n4 n1 :
  0 <= n100 <= 3 -> 0 <= n4 <= 24 -> 0 <= n1 <= 3 ->
  _is_leap (q * 400 + 1 + (n100 * 100 + n4 * 4 + n1))
  = (n1 =? 3) && (negb (n4 =? 24) || (n100 =? 3)).
Proof.
  intros H100 H4 H1. unfold _is_leap.
  set (y := q * 400 + 1 + (n100 * 100 + n4 * 4 + n1)).
  assert (E4 : y mod 4 = (n1 + 1) mod 4).
  { unfold y. replace (q * 400 + 1 + (n100 * 100 + n4 * 4 + n1))
      with ((n1 + 1) + (q * 100 + n100 * 25 + n4) * 4) by ring.
    apply Z_mod_plus_full. }
  assert (E100 : y mod 100 = (n4 * 4 + n1 + 1) mod 100).
  { unfold y. replace (q * 400 + 1 + (n100 * 100 + n4 * 4 + n1))
      with ((n4 * 4 + n1 + 1) + (q * 4 + n100) * 100) by ring.
    apply Z_mod_plus_full. }
  assert (E400 : y mod 400 = (n100 * 100 + n4 * 4 + n1 + 1) mod 400).
  { unfold y. replace (q * 400 + 1 + (n100 * 100 + n4 * 4 + n1))
      with ((n100 * 100 + n4 * 4 + n1 + 1) + q * 400) by ring.
    apply Z_mod_plus_full. }
  rewrite E4, E100, E400.
  destruct (Z.eqb_spec n1 3) as [->|N1].
  - destruct (Z.eqb_spec n4 24) as [->|N4].
    + destruct (Z.eqb_spec n100 3) as [->|N100]; [reflexivity|].
      assert (n100 = 0 \/ n100 = 1 \/ n100 = 2) as [->|[->| ->]] by lia; reflexivity.
    + simpl. rewrite (Z.mod_small (n4 * 4 + 3 + 1) 100) by lia.
      destruct (Z.eqb_spec (n4 * 4 + 3 + 1) 0); [lia|]. reflexivity.
  - assert (n1 = 0 \/ n1 = 1 \/ n1 = 2) as [->|[->| ->]] by lia; reflexivity.
Qed.

Lemma days_before_year_split q n100 n4 n1 :
  0 <= n100 <= 3 -> 0 <= n4 <= 24 -> 0 <= n1 <= 3 ->
  _days_before_year (q * 400 + 1 + (n100 * 100 + n4 * 4 + n1))
  = q * 146097 + n100 * 36524 + n4 * 1461 + n1 * 365.
Proof.
  intros H100 H4 H1. unfold _days_before_year. cbv zeta.
  Z.div_mod_to_equations. lia.
Qed.

Lemma month_day_valid leapyear r y :
  0 <= r < 365 + Z.b2z leapyear ->
  _is_leap y = leapyear ->
  let '(m, d) := month_day leapyear r in
  1 <= m <= 12 /\ 1 <= d <= _days_in_month y m
  /\ _days_before_month y m + d = r + 1.
Proof.
  intros Hr Hleap.
  pose proof (month_day_spec leapyear r Hr) as H.
  unfold month_day_ok in H.
  destruct (month_day leapyear r) as [m d].
  unfold _days_in_month, _days_before_month. rewrite Hleap.
  repeat (apply andb_prop in H; destruct H as [H ?]).
  lia.
Qed.

Lemma ord2ymd_correct n :
  1 <= n <= _MAXORDINAL ->
  let '(y, m, d) := _ord2ymd n in
  valid_date (mkdate y m d) = true /\ _ymd2ord y m d = n.
Proof.
  unfold _MAXORDINAL. intros Hn.
  rewrite ord2ymd_unfold. cbv zeta.
  pose proof (Z.div_mod (n - 1) 146097 ltac:(lia)) as E400.
  pose proof (Z.mod_pos_bound (n - 1) 146097 ltac:(lia)) as B400.
  set (q := (n - 1) / 146097) in *. set (r400 := (n - 1) mod 146097) in *.
  pose proof (Z.div_mod r400 36524 ltac:(lia)) as E100.
  pose proof (Z.mod_pos_bound r400 36524 ltac:(lia)) as B100.
  set (n100 := r400 / 36524) in *. set (r100 := r400 mod 36524) in *.
  pose proof (Z.div_mod r100 1461 ltac:(lia)) as E4.
  pose proof (Z.mod_pos_bound r100 1461 ltac:(lia)) as B4.
  set (n4 := r100 / 1461) in *. set (r4 := r100 mod 1461) in *.
  pose proof (Z.div_mod r4 365 ltac:(lia)) as E1.
  pose proof (Z.mod_pos_bound r4 365 ltac:(lia)) as B1.
  set (n1 := r4 / 365) in *. set (r1 := r4 mod 365) in *.
  clearbody q r400 n100 r100 n4 r4 n1 r1.
  assert (Hq : 0 <= q <= 24) by lia.
  assert (H100 : 0 <= n100 <= 4) by lia.
  assert (H4 : 0 <= n4 <= 24) by lia.
  assert (H1 : 0 <= n1 <= 4) by lia.
  destruct (Z.eqb_spec n1 4) as [N1|N1]; [|destruct (Z.eqb_spec n100 4) as [N100|N100]];
    cbn [orb].
  - (* the last day of a four-year cycle *)
    assert (n4 <= 23 /\ n100 <= 3 /\ r1 = 0) as (H4' & H100' & ->) by lia.
    replace (q * 400 + 1 + (n100 * 100 + n4 * 4 + n1) - 1)
      with (q * 400 + 1 + (n100 * 100 + n4 * 4 + 3)) by lia.
    unfold valid_date, _ymd2ord, _days_in_month, _days_before_month. cbn [year month day].
    rewrite is_leap_split, days_before_year_split by lia.
    replace (n4 =? 24) with false by (symmetry; apply Z.eqb_neq; lia).
    change (index _DAYS_BEFORE_MONTH 12) with 334.
    change (index _DAYS_IN_MONTH 12) with 31.
    unfold MINYEAR, MAXYEAR. cbn. split; [|lia].
    repeat (apply andb_true_intro; split); lia.
  - (* the last day of a 400-year cycle *)
    assert (n4 = 0 /\ n1 = 0 /\ r1 = 0) as (-> & -> & ->) by lia.
    subst n100.
    replace (q * 400 + 1 + (4 * 100 + 0 * 4 + 0) - 1)
      with (q * 400 + 1 + (3 * 100 + 24 * 4 + 3)) by lia.
    unfold valid_date, _ymd2ord, _days_in_month, _days_before_month. cbn [year month day].
    rewrite is_leap_split, days_before_year_split by lia.
    change (index _DAYS_BEFORE_MONTH 12) with 334.
    change (index _DAYS_IN_MONTH 12) with 31.
    unfold MINYEAR, MAXYEAR. cbn. split; [|lia].
    repeat (apply andb_true_intro; split); lia.
  - set (leapyear := (n1 =? 3) && (negb (n4 =? 24) || (n100 =? 3))).
    set (y := q * 400 + 1 + (n100 * 100 + n4 * 4 + n1)).
    assert (Hleap : _is_leap y = leapyear) by (apply is_leap_split; lia).
    assert (Hdby : _days_before_year y
                   = q * 146097 + n100 * 36524 + n4 * 1461 + n1 * 365)
      by (apply days_before_year_split; lia).
    clearbody leapyear.
    assert (Hr1 : 0 <= r1 < 365 + Z.b2z leapyear) by (destruct leapyear; simpl; lia).
    pose proof (month_day_valid leapyear r1 y Hr1 Hleap) as Hmd.
    destruct (month_day leapyear r1) as [m d].
    destruct Hmd as (Hm & Hd & Hsum).
    unfold valid_date, _ymd2ord. cbn [year month day].
    rewrite Hdby. split; [|lia].
    assert (Hy : 1 <= y <= 9999).
    { unfold y. split; [lia|].
      destruct (Z.eq_dec q 24) as [->|]; [|lia].
      destruct (Z.eq_dec n100 3) as [->|]; [|lia].
      destruct (Z.eq_dec n4 24) as [->|]; [|lia]. lia. }
    unfold MINYEAR, MAXYEAR.
    repeat (apply andb_true_intro; split); lia.
Qed.

Lemma days_before_year_succ y :
  _days_before_year (y + 1) = _days_before_year y + 365 + Z.b2z (_is_leap y).
Proof.
  unfold _days_before_year, _is_leap. cbv zeta.
  destruct (Z.eqb_spec (y mod 4) 0), (Z.eqb_spec (y mod 100) 0),
    (Z.eqb_spec (y mod 400) 0); cbn [negb orb andb Z.b2z];
    Z.div_mod_to_equations; lia.
Qed.

Lemma days_before_year_mono y1 y2 :
  y1 <= y2 -> _days_before_year y1 <= _days_before_year y2.
Proof.
  intros H. replace y2 with (y1 + (y2 - y1)) by lia.
  assert (Hk : 0 <= y2 - y1) by lia. revert Hk.
  generalize (y2 - y1). clear H y2.
  apply natlike_ind.
  - rewrite Z.add_0_r. lia.
  - intros k Hk IH. unfold Z.succ. rewrite Z.add_assoc, days_before_year_succ.
    destruct (_is_leap (y1 + k)); simpl; lia.
Qed.

Lemma month_cases m :
  1 <= m <= 12 ->
  m = 1 \/ m = 2 \/ m = 3 \/ m = 4 \/ m = 5 \/ m = 6 \/
  m = 7 \/ m = 8 \/ m = 9 \/ m = 10 \/ m = 11 \/ m = 12.
Proof. lia. Qed.

Ltac each_month H :=
  apply month_cases in H;
  repeat (destruct H as [H|H]; [subst|]); [..|subst].

Ltac eval_index :=
  repeat match goal with
    | |- context [index ?t ?k] =>
        let v := eval vm_compute in (index t k) in change (index t k) with v
    | H : context [index ?t ?k] |- _ =>
        let v := eval vm_compute in (index t k) in change (index t k) with v in H
    end.

Lemma days_before_month_next y m1 m2 :
  1 <= m1 <= 12 -> 1 <= m2 <= 12 -> m1 < m2 ->
  _days_before_month y m1 + _days_in_month y m1 <= _days_before_month y m2.
Proof.
  intros H1 H2 Hlt. unfold _days_before_month, _days_in_month.
  destruct (_is_leap y); each_month H1; each_month H2;
    try lia; vm_compute; discriminate.
Qed.

Lemma days_before_month_nonneg y m :
  1 <= m <= 12 -> 0 <= _days_before_month y m.
Proof.
  intros H. unfold _days_before_month.
  destruct (_is_leap y); each_month H; vm_compute; discriminate.
Qed.

Lemma day_of_year_bound y m d :
  1 <= m <= 12 -> d <= _days_in_month y m ->
  _days_before_month y m + d <= 365 + Z.b2z (_is_leap y).
Proof.
  intros H Hd. unfold _days_before_month, _days_in_month in *.
  destruct (_is_leap y); each_month H; eval_index; simpl in *; lia.
Qed.

Lemma valid_date_spec d :
  valid_date d = true <->
  1 <= year d <= 9999 /\ 1 <= month d <= 12
  /\ 1 <= day d <= _days_in_month (year d) (month d).
Proof.
  unfold valid_date, MINYEAR, MAXYEAR.
  rewrite !andb_true_iff, !Z.leb_le. lia.
Qed.

Lemma toordinal_lt d1 d2 :
  valid_date d1 = true -> valid_date d2 = true ->
  _cmp d1 d2 = Lt -> toordinal d1 < toordinal d2.
Proof.
  intros V1%valid_date_spec V2%valid_date_spec.
  destruct d1 as [y1 m1 a1], d2 as [y2 m2 a2].
  unfold _cmp, toordinal, _ymd2ord. cbn [year month day] in *.
  destruct V1 as (Hy1 & Hm1 & Ha1), V2 as (Hy2 & Hm2 & Ha2).
  destruct (Z.compare_spec y1 y2) as [->|Hy|Hy]; [|intros _|discriminate].
  - destruct (Z.compare_spec m1 m2) as [->|Hm|Hm]; [|intros _|discriminate].
    + rewrite Z.compare_lt_iff. lia.
    + pose proof (days_before_month_next y2 m1 m2 Hm1 Hm2 Hm). lia.
  - pose proof (days_before_year_mono (y1 + 1) y2 ltac:(lia)) as Hmono.
    rewrite days_before_year_succ in Hmono.
    pose proof (day_of_year_bound y1 m1 a1 Hm1 ltac:(lia)).
    pose proof (days_before_month_nonneg y2 m2 Hm2). lia.
Qed.

Lemma cmp_antisym d1 d2 : _cmp d2 d1 = CompOpp (_cmp d1 d2).
Proof.
  unfold _cmp.
  rewrite (Z.compare_antisym (year d1)), (Z.compare_antisym (month d1)),
    (Z.compare_antisym (day d1)).
  destruct (year d1 ?= year d2), (month d1 ?= month d2), (day d1 ?= day d2);
    reflexivity.
Qed.

Lemma cmp_eq d1 d2 : _cmp d1 d2 = Eq -> d1 = d2.
Proof.
  destruct d1 as [y1 m1 a1], d2 as [y2 m2 a2]. unfold _cmp. cbn [year month day].
  destruct (Z.compare_spec y1 y2); try discriminate.
  destruct (Z.compare_spec m1 m2); try discriminate.
  destruct (Z.compare_spec a1 a2); try discriminate.
  intros _. congruence.
Qed.

Lemma toordinal_compare d1 d2 :
  valid_date d1 = true -> valid_date d2 = true ->
  (toordinal d1 ?= toordinal d2) = _cmp d1 d2.
Proof.
  intros V1 V2. destruct (_cmp d1 d2) eqn:E.
  - apply cmp_eq in E. subst. apply Z.compare_refl.
  - apply Z.compare_lt_iff. now apply toordinal_lt.
  - apply Z.compare_gt_iff. apply toordinal_lt; trivial.
    rewrite cmp_antisym, E. reflexivity.
Qed.

Lemma toordinal_inj d1 d2 :
  valid_date d1 = true -> valid_date d2 = true ->
  toordinal d1 = toordinal d2 -> d1 = d2.
Proof.
  intros V1 V2 E. apply cmp_eq.
  rewrite <- toordinal_compare by assumption. now apply Z.compare_eq_iff.
Qed.

Lemma toordinal_range d :
  valid_date d = true -> 1 <= toordinal d <= _MAXORDINAL.
Proof.
  intros V%valid_date_spec. destruct d as [y m a].
  unfold toordinal, _ymd2ord. cbn [year month day] in *.
  destruct V as (Hy & Hm & Ha).
  pose proof (days_before_month_nonneg y m Hm).
  pose proof (day_of_year_bound y m a Hm ltac:(lia)).
  pose proof (days_before_year_mono 1 y ltac:(lia)) as Hlo.
  pose proof (days_before_year_mono (y + 1) 10000 ltac:(lia)) as Hhi.
  rewrite days_before_year_succ in Hhi.
  change (_days_before_year 1) with 0 in Hlo.
  change (_days_before_year 10000) with 3652059 in Hhi.
  unfold _MAXORDINAL. lia.
Qed.

Lemma date_new_valid y m d :
  valid_date (mkdate y m d) = true -> date_new y m d = Ok (mkdate y m d).
Proof.
  unfold valid_date, date_new. cbn [year month day]. intros H.
  repeat (apply andb_prop in H; destruct H as [H ?]).
  repeat match goal with H : _ = true |- _ => rewrite H; clear H end.
  reflexivity.
Qed.

Lemma date_new_ok y m d dt :
  date_new y m d = Ok dt -> dt = mkdate y m d /\ valid_date dt = true.
Proof.
  unfold date_new, valid_date.
  destruct (MINYEAR <=? y) eqn:E1, (y <=? MAXYEAR) eqn:E2;
    cbn [negb andb]; try discriminate.
  destruct (1 <=? m) eqn:E3, (m <=? 12) eqn:E4;
    cbn [negb andb]; try discriminate.
  destruct (1 <=? d) eqn:E5, (d <=? _days_in_month y m) eqn:E6;
    cbn [negb andb]; try discriminate.
  intros [= <-]. cbn [year month day].
  rewrite E1, E2, E3, E4, E5, E6. auto.
Qed.

Lemma date_new_err y m d e : date_new y m d = Err e -> e = ValueError.
Proof.
  unfold date_new.
  repeat match goal with |- context [if ?b then _ else _] => destruct b end;
    congruence.
Qed.

Lemma fromordinal_spec n :
  1 <= n <= _MAXORDINAL ->
  exists d, fromordinal n = Ok d /\ valid_date d = true /\ toordinal d = n.
Proof.
  intros Hn. pose proof (ord2ymd_correct n Hn) as H.
  unfold fromordinal. destruct (_ord2ymd n) as [[y m] d].
  destruct H as [V E]. exists (mkdate y m d).
  rewrite date_new_valid by assumption. auto.
Qed.

Lemma fromordinal_toordinal d :
  valid_date d = true -> fromordinal (toordinal d) = Ok d.
Proof.
  intros V.
  destruct (fromordinal_spec (toordinal d) (toordinal_range d V))
    as (d' & E & V' & O).
  rewrite E. f_equal. now apply toordinal_inj.
Qed.

(** ** The matcher is sound: what [_strptime] accepts *)

Lemma rmatch_sound {R : Type} (r : regex) :
  forall (s : list Z) (gd : gmap string (list Z))
         (k : list Z -> gmap string (list Z) -> option R) (res : R),
    rmatch r s gd k = Some res ->
    exists s1 s2 gd',
      s = s1 ++ s2 /\ matches r s1 gd gd' /\ k s2 gd' = Some res.
Proof.
  induction r as [c| |lo hi|r1 IH1 r2 IH2|r1 IH1 r2 IH2|name r IH];
    intros s gd k res H; simpl in H.
  - destruct s as [|c' s']; [discriminate|].
    destruct (Z.eqb_spec c c') as [<-|]; [|discriminate].
    exists [c], s', gd. repeat split; [constructor | assumption].
  - destruct s as [|c' s']; [discriminate|].
    destruct (is_digit c') eqn:E; [|discriminate].
    exists [c'], s', gd. repeat split; [now constructor | assumption].
  - destruct s as [|c' s']; [discriminate|].
    destruct (in_range lo hi c') eqn:E; [|discriminate].
    exists [c'], s', gd. repeat split; [now constructor | assumption].
  - apply IH1 in H as (s1 & s2 & gd1 & -> & M1 & H).
    apply IH2 in H as (s2' & s3 & gd2 & -> & M2 & H).
    exists (s1 ++ s2'), s3, gd2. rewrite app_assoc.
    repeat split; [econstructor; eassumption | assumption].
  - destruct (rmatch r1 s gd k) as [res'|] eqn:E.
    + injection H as ->. apply IH1 in E as (s1 & s2 & gd' & -> & M & H).
      exists s1, s2, gd'. repeat split; [now apply matches_alt_l | assumption].
    + apply IH2 in H as (s1 & s2 & gd' & -> & M & H).
      exists s1, s2, gd'. repeat split; [now apply matches_alt_r | assumption].
  - apply IH in H as (s1 & s2 & gd' & -> & M & H).
    rewrite length_app in H.
    replace (length s1 + length s2 - length s2)%nat with (length s1) in H by lia.
    rewrite take_app_length in H.
    exists s1, s2, (<[name := s1]> gd'). repeat split; [now constructor | assumption].
Qed.

Ltac inv_matches :=
  repeat match goal with
    | H : matches (Lit _) _ _ _ |- _ => inversion H; subst; clear H
    | H : matches Digit _ _ _ |- _ => inversion H; subst; clear H
    | H : matches (Range _ _) _ _ _ |- _ => inversion H; subst; clear H
    | H : matches (Seq _ _) _ _ _ |- _ => inversion H; subst; clear H
    | H : matches (Alt _ _) _ _ _ |- _ => inversion H; subst; clear H
    | H : matches (Group _ _) _ _ _ |- _ => inversion H; subst; clear H
    end.

Ltac bool_facts :=
  repeat match goal with
    | H : ?b = true |- context [?b] => rewrite H
    end;
  rewrite ?Z.eqb_refl, ?orb_true_r; cbn [andb orb]; try reflexivity.

Ltac shape_text :=
  cbn [app year_text month_text day_text]; bool_facts.

Lemma matches_re_Y Y gd gd' :
  matches re_Y Y gd gd' -> year_text Y = true /\ gd' = <["Y" := Y]> gd.
Proof.
  unfold re_Y. intros H. inv_matches. split; [|reflexivity].
  shape_text.
Qed.

Lemma matches_re_m M gd gd' :
  matches re_m M gd gd' -> month_text M = true /\ gd' = <["m" := M]> gd.
Proof.
  unfold re_m. intros H. inv_matches; (split; [|reflexivity]); shape_text.
Qed.

Lemma matches_re_d D gd gd' :
  matches re_d D gd gd' -> day_text D = true /\ gd' = <["d" := D]> gd.
Proof.
  unfold re_d. intros H. inv_matches; (split; [|reflexivity]); shape_text.
Qed.

Lemma matches_format_regex s gd gd' :
  matches format_regex s gd gd' ->
  exists Y M D,
    s = Y ++ py "-" ++ M ++ py "-" ++ D
    /\ year_text Y = true /\ month_text M = true /\ day_text D = true
    /\ gd' = <["d" := D]> (<["m" := M]> (<["Y" := Y]> gd)).
Proof.
  unfold format_regex. intros H.
  inversion H as [| | |? ? Y s' ? gd1 ? HY H'| | |]; subst; clear H.
  inversion H' as [| | |? ? h1 s'' ? gd2 ? Hh1 H''| | |]; subst; clear H'.
  inversion H'' as [| | |? ? M s3 ? gd3 ? HM H3| | |]; subst; clear H''.
  inversion H3 as [| | |? ? h2 D ? gd4 ? Hh2 HD| | |]; subst; clear H3.
  inversion Hh1; subst. inversion Hh2; subst.
  apply matches_re_Y in HY as [? ->].
  apply matches_re_m in HM as [? ->].
  apply matches_re_d in HD as [? ->].
  exists Y, M, D. auto.
Qed.

Lemma strptime_ok_inv s y m d :
  _strptime s = Ok (y, m, d) ->
  exists Y M D,
    s = Y ++ py "-" ++ M ++ py "-" ++ D
    /\ year_text Y = true /\ month_text M = true /\ day_text D = true
    /\ py_int Y = Ok y /\ py_int M = Ok m /\ py_int D = Ok d
    /\ valid_date (mkdate y m d) = true.
Proof.
  unfold _strptime, re_match. intros H.
  destruct (rmatch _ _ _ _) as [[found_dict end_]|] eqn:E; [|discriminate].
  apply rmatch_sound in E as (s1 & s2 & gd' & -> & M & [= <- <-]).
  destruct (Nat.eqb_spec (length (s1 ++ s2))
              (length (s1 ++ s2) - length s2)) as [L|];
    [|discriminate].
  rewrite length_app in L.
  assert (s2 = []) as -> by (destruct s2; [reflexivity | simpl in L; lia]).
  cbn [negb] in H.
  apply matches_format_regex in M as (Y & Mo & D & -> & HY & HM & HD & ->).
  unfold group_int in H.
  rewrite lookup_insert_ne, lookup_insert_ne, lookup_insert_eq in H by done.
  rewrite lookup_insert_ne, lookup_insert_eq in H by done.
  rewrite lookup_insert_eq in H.
  destruct (py_int Y) as [y'|] eqn:EY; [|discriminate].
  destruct (py_int Mo) as [m'|] eqn:EM; [|discriminate].
  destruct (py_int D) as [d'|] eqn:ED; [|discriminate].
  cbn [bind] in H.
  destruct (date_new y' m' d') as [dt|] eqn:EN; [|discriminate].
  cbn [bind] in H. injection H as <- <- <-.
  apply date_new_ok in EN as [-> V].
  exists Y, Mo, D. rewrite app_nil_r. auto 10.
Qed.

Example parse_padded :
  str_to_datetime_date (py "2020-10-31") = Ok (mkdate 2020 10 31).
Proof. vm_compute. reflexivity. Qed.

Example parse_space_day :
  str_to_datetime_date (py "2020-01- 5") = Ok (mkdate 2020 1 5).
Proof. vm_compute. reflexivity. Qed.

Example parse_day_32 : str_to_datetime_date (py "2020-01-32") = Err ValueError.
Proof. vm_compute. reflexivity. Qed.

Example parse_year_0 : str_to_datetime_date (py "0000-10-31") = Err ValueError.
Proof. vm_compute. reflexivity. Qed.

Example parse_trailing : str_to_datetime_date (py "2020-10-31 ") = Err ValueError.
Proof. vm_compute. reflexivity. Qed.

(** Fullwidth digits: ['２０２０-01-1５'] is 15 January 2020, but the month
    must be in ASCII. *)
Example parse_fullwidth :
  str_to_datetime_date
    ([65298; 65296; 65298; 65296] ++ py "-01-1" ++ [65301])
  = Ok (mkdate 2020 1 15).
Proof. vm_compute. reflexivity. Qed.

Example parse_fullwidth_month :
  str_to_datetime_date (py "2020-" ++ [65296] ++ py "1-15") = Err ValueError.
Proof. vm_compute. reflexivity. Qed.

(** ** date_range *)

Lemma date_add_spec s k :
  valid_date s = true -> 0 <= k -> toordinal s + k <= _MAXORDINAL ->
  exists d, date_add s k = Ok d /\ valid_date d = true
            /\ toordinal d = toordinal s + k.
Proof.
  intros V Hk Hmax. pose proof (toordinal_range s V) as R.
  unfold date_add. cbv zeta.
  replace (0 <? toordinal s + k) with true by (symmetry; apply Z.ltb_lt; lia).
  replace (toordinal s + k <=? _MAXORDINAL) with true
    by (symmetry; apply Z.leb_le; lia).
  cbn [andb]. apply fromordinal_spec. lia.
Qed.

Lemma date_range_loop_spec s len : forall a,
  valid_date s = true ->
  (len = 0%nat \/ toordinal s + Z.of_nat (a + len) - 1 <= _MAXORDINAL) ->
  let g := date_range_loop s (map Z.of_nat (seq a len)) in
  outcome g = None /\ length (yields g) = len
  /\ forall (i : nat) (d : date), yields g !! i = Some d ->
       valid_date d = true /\ toordinal d = toordinal s + Z.of_nat (a + i).
Proof.
  induction len as [|len IH]; intros a V Hb; cbn zeta.
  - cbn. split; [reflexivity|]. split; [reflexivity|].
    intros i d H; destruct i; discriminate.
  - destruct Hb as [Hb|Hb]; [discriminate|].
    cbn [seq map date_range_loop].
    destruct (date_add_spec s (Z.of_nat a) V ltac:(lia) ltac:(lia))
      as (d0 & E & V0 & O0).
    rewrite E. cbn [outcome yields length].
    destruct (IH (S a) V ltac:(right; lia)) as (Ho & Hl & Hi).
    split; [assumption|]. split; [now rewrite Hl|].
    intros [|i] d H.
    + injection H as <-. rewrite Nat.add_0_r. auto.
    + apply Hi in H. replace (a + S i)%nat with (S a + i)%nat by lia. assumption.
Qed.

Lemma date_range_dates s e inclusive :
  valid_date s = true -> valid_date e = true ->
  let g := date_range (Date s) (Date e) inclusive in
  outcome g = None
  /\ length (yields g)
     = Z.to_nat (date_sub_days e s + (if inclusive then 1 else 0))
  /\ forall (i : nat) (d : date), yields g !! i = Some d ->
       valid_date d = true /\ toordinal d = toordinal s + Z.of_nat i.
Proof.
  intros Vs Ve. unfold date_range, as_date, range. cbv zeta.
  pose proof (toordinal_range e Ve) as Re.
  set (n := if inclusive then date_sub_days e s + 1 else date_sub_days e s).
  assert (Hn : n = date_sub_days e s + (if inclusive then 1 else 0))
    by (unfold n; destruct inclusive; lia).
  rewrite <- Hn.
  apply (date_range_loop_spec s (Z.to_nat n) 0%nat Vs).
  unfold date_sub_days in Hn.
  destruct (Z.to_nat n) eqn:E; [now left | right].
  destruct inclusive; lia.
Qed.

Lemma as_date_valid x d :
  valid_spec x -> as_date x = Ok d -> valid_date d = true.
Proof.
  destruct x as [str|d']; cbn.
  - intros _ H. unfold str_to_datetime_date, strptime_date in H.
    destruct (_strptime str) as [[[y m] a]|]; [|discriminate].
    cbn in H. now apply date_new_ok in H.
  - now intros V [= <-].
Qed.

Lemma date_range_normalized start_date end_date inclusive s e :
  as_date start_date = Ok s -> as_date end_date = Ok e ->
  date_range start_date end_date inclusive
  = date_range (Date s) (Date e) inclusive.
Proof. unfold date_range. intros -> ->. reflexivity. Qed.

Lemma date_range_invalid start_date end_date inclusive :
  (forall s, as_date start_date <> Ok s) \/ (forall e, as_date end_date <> Ok e) ->
  yields (date_range start_date end_date inclusive) = [].
Proof.
  unfold date_range. intros [H|H].
  - destruct (as_date start_date); [now destruct (H a) | reflexivity].
  - destruct (as_date start_date); [|reflexivity].
    destruct (as_date end_date); [now destruct (H a0) | reflexivity].
Qed.

(** Every date a range yields is a valid date, the [i]-th one [i] days
    after the start. *)
Lemma date_range_lookup start_date end_date inclusive i d :
  valid_spec start_date -> valid_spec end_date ->
  yields (date_range start_date end_date inclusive) !! i = Some d ->
  exists s, as_date start_date = Ok s /\ valid_date s = true
            /\ valid_date d = true
            /\ toordinal d = toordinal s + Z.of_nat i.
Proof.
  intros Vs Ve H.
  destruct (as_date start_date) as [s|] eqn:Es;
    [|rewrite date_range_invalid in H; [discriminate | left; congruence]].
  destruct (as_date end_date) as [e|] eqn:Ee;
    [|rewrite date_range_invalid in H; [discriminate | right; congruence]].
  rewrite (date_range_normalized _ _ _ s e Es Ee) in H.
  pose proof (as_date_valid _ _ Vs Es) as Vs'.
  pose proof (as_date_valid _ _ Ve Ee) as Ve'.
  destruct (date_range_dates s e inclusive Vs' Ve') as (_ & _ & Hi).
  apply Hi in H as [V O]. exists s. auto.
Qed.

Lemma date_lt_ordinal a b :
  valid_date a = true -> valid_date b = true ->
  date_lt a b = true <-> toordinal a < toordinal b.
Proof.
  intros Va Vb. unfold date_lt. rewrite <- (toordinal_compare a b Va Vb).
  rewrite <- Z.compare_lt_iff. destruct (toordinal a ?= toordinal b); easy.
Qed.

Lemma date_le_ordinal a b :
  valid_date a = true -> valid_date b = true ->
  date_le a b = true <-> toordinal a <= toordinal b.
Proof.
  intros Va Vb. unfold date_le. rewrite <- (toordinal_compare a b Va Vb).
  unfold Z.le. destruct (toordinal a ?= toordinal b); easy.
Qed.

(** C1: whatever the form of the two arguments, the dates that
    [date_range] yields advance by exactly one day per step: each element is
    its predecessor plus [timedelta(1)], a later element is a later date,
    and no date occurs twice. *)
Theorem date_range_one_day_steps start_date end_date inclusive :
  valid_spec start_date -> valid_spec end_date ->
  let dates := yields (date_range start_date end_date inclusive) in
  (forall (i : nat) (a b : date),
      dates !! i = Some a -> dates !! S i = Some b ->
      date_add a 1 = Ok b /\ date_lt a b = true)
  /\ (forall (i j : nat) (a b : date),
         (i < j)%nat -> dates !! i = Some a -> dates !! j = Some b ->
         date_lt a b = true)
  /\ NoDup dates.
Proof.
  intros Vs Ve dates.
  assert (Hlt : forall (i j : nat) (a b : date),
             dates !! i = Some a -> dates !! j = Some b ->
             valid_date a = true /\ valid_date b = true
             /\ toordinal b - toordinal a = Z.of_nat j - Z.of_nat i).
  { intros i j a b Ha Hb.
    apply date_range_lookup in Ha as (s & Es & _ & Va & Oa); trivial.
    apply date_range_lookup in Hb as (s' & Es' & _ & Vb & Ob); trivial.
    assert (s' = s) as -> by congruence. repeat split; trivial. lia. }
  split; [|split].
  - intros i a b Ha Hb.
    destruct (Hlt i (S i) a b Ha Hb) as (Va & Vb & Hd).
    pose proof (toordinal_range b Vb) as Rb.
    destruct (date_add_spec a 1 Va ltac:(lia) ltac:(lia)) as (d & E & Vd & Od).
    assert (d = b) as -> by (apply toordinal_inj; trivial; lia).
    split; [assumption|]. apply date_lt_ordinal; trivial. lia.
  - intros i j a b Hij Ha Hb.
    destruct (Hlt i j a b Ha Hb) as (Va & Vb & Hd).
    apply date_lt_ordinal; trivial. lia.
  - apply NoDup_alt. intros i j d Hi Hj.
    destruct (Hlt i j d d Hi Hj) as (_ & _ & Hd). lia.
Qed.

Lemma date_range_one_day_steps_witness :
  let dates :=
    yields (date_range (Str (py "2020-02-27")) (Date (mkdate 2020 3 2)) false) in
  dates = [mkdate 2020 2 27; mkdate 2020 2 28; mkdate 2020 2 29; mkdate 2020 3 1]
  /\ (forall (i : nat) (a b : date),
         dates !! i = Some a -> dates !! S i = Some b ->
         date_add a 1 = Ok b /\ date_lt a b = true)
  /\ NoDup dates.
Proof.
  split; [vm_compute; reflexivity|].
  pose proof (date_range_one_day_steps
                (Str (py "2020-02-27")) (Date (mkdate 2020 3 2)) false I eq_refl)
    as (H1 & _ & H3).
  split; assumption.
Defined.

(** C2: for valid [start_date <= end_date], the inclusive range yields
    exactly [(end_date - start_date).days + 1] dates and returns normally;
    when the two are equal it yields the single date [start_date]. *)
Theorem date_range_inclusive_length start_date end_date s e :
  valid_spec start_date -> valid_spec end_date ->
  as_date start_date = Ok s -> as_date end_date = Ok e ->
  date_le s e = true ->
  let g := date_range start_date end_date true in
  outcome g = None
  /\ Z.of_nat (length (yields g)) = date_sub_days e s + 1
  /\ (s = e -> yields g = [s]).
Proof.
  intros Vs Ve Es Ee Hle g.
  pose proof (as_date_valid _ _ Vs Es) as Vs'.
  pose proof (as_date_valid _ _ Ve Ee) as Ve'.
  unfold g. rewrite (date_range_normalized _ _ _ s e Es Ee).
  destruct (date_range_dates s e true Vs' Ve') as (Ho & Hl & Hi).
  apply date_le_ordinal in Hle; trivial.
  split; [assumption|]. split.
  - rewrite Hl. unfold date_sub_days. lia.
  - intros <-. unfold date_sub_days in Hl.
    replace (toordinal s - toordinal s + 1) with 1 in Hl by lia.
    destruct (yields (date_range (Date s) (Date s) true)) as [|d [|d' l]];
      try discriminate.
    destruct (Hi 0%nat d eq_refl) as [Vd Od].
    f_equal. apply toordinal_inj; trivial. lia.
Qed.

Lemma date_range_inclusive_length_witness :
  Z.of_nat (length (yields (date_range (Str (py "2019-12-30")) (Date (mkdate 2020 1 2)) true)))
  = date_sub_days (mkdate 2020 1 2) (mkdate 2019 12 30) + 1
  /\ yields (date_range (Date (mkdate 2020 2 29)) (Str (py "2020-02-29")) true)
     = [mkdate 2020 2 29].
Proof.
  split.
  - apply (date_range_inclusive_length
             (Str (py "2019-12-30")) (Date (mkdate 2020 1 2))
             (mkdate 2019 12 30) (mkdate 2020 1 2));
      [exact I | reflexivity | vm_compute; reflexivity | reflexivity | reflexivity].
  - apply (date_range_inclusive_length
             (Date (mkdate 2020 2 29)) (Str (py "2020-02-29"))
             (mkdate 2020 2 29) (mkdate 2020 2 29));
      [reflexivity | exact I | reflexivity | vm_compute; reflexivity
      | reflexivity | reflexivity].
Defined.

(** C3: for valid [start_date <= end_date], the exclusive range yields
    exactly [(end_date - start_date).days] dates and returns normally; when
    the two are equal it yields nothing. *)
Theorem date_range_exclusive_length start_date end_date s e :
  valid_spec start_date -> valid_spec end_date ->
  as_date start_date = Ok s -> as_date end_date = Ok e ->
  date_le s e = true ->
  let g := date_range start_date end_date false in
  outcome g = None
  /\ Z.of_nat (length (yields g)) = date_sub_days e s
  /\ (s = e -> yields g = []).
Proof.
  intros Vs Ve Es Ee Hle g.
  pose proof (as_date_valid _ _ Vs Es) as Vs'.
  pose proof (as_date_valid _ _ Ve Ee) as Ve'.
  unfold g. rewrite (date_range_normalized _ _ _ s e Es Ee).
  destruct (date_range_dates s e false Vs' Ve') as (Ho & Hl & Hi).
  apply date_le_ordinal in Hle; trivial.
  split; [assumption|]. split.
  - rewrite Hl. unfold date_sub_days. lia.
  - intros <-. unfold date_sub_days in Hl.
    replace (toordinal s - toordinal s + 0) with 0 in Hl by lia.
    now destruct (yields (date_range (Date s) (Date s) false)).
Qed.

Lemma date_range_exclusive_length_witness :
  Z.of_nat (length (yields (date_range (Str (py "2019-12-30")) (Date (mkdate 2020 1 2)) false)))
  = date_sub_days (mkdate 2020 1 2) (mkdate 2019 12 30)
  /\ yields (date_range (Date (mkdate 2020 2 29)) (Str (py "2020-02-29")) false) = [].
Proof.
  split.
  - apply (date_range_exclusive_length
             (Str (py "2019-12-30")) (Date (mkdate 2020 1 2))
             (mkdate 2019 12 30) (mkdate 2020 1 2));
      [exact I | reflexivity | vm_compute; reflexivity | reflexivity | reflexivity].
  - apply (date_range_exclusive_length
             (Date (mkdate 2020 2 29)) (Str (py "2020-02-29"))
             (mkdate 2020 2 29) (mkdate 2020 2 29));
      [reflexivity | exact I | reflexivity | vm_compute; reflexivity
      | reflexivity | reflexivity].
Defined.

(** C4: when [end_date] is strictly before [start_date], the range yields
    nothing and returns normally, inclusive or not. *)
Theorem date_range_reversed_empty start_date end_date s e inclusive :
  valid_spec start_date -> valid_spec end_date ->
  as_date start_date = Ok s -> as_date end_date = Ok e ->
  date_lt e s = true ->
  let g := date_range start_date end_date inclusive in
  yields g = [] /\ outcome g = None.
Proof.
  intros Vs Ve Es Ee Hlt.
  pose proof (as_date_valid _ _ Vs Es) as Vs'.
  pose proof (as_date_valid _ _ Ve Ee) as Ve'.
  apply date_lt_ordinal in Hlt; trivial.
  unfold date_range. rewrite Es, Ee. cbv zeta. unfold date_sub_days, range.
  replace (Z.to_nat _) with 0%nat by (destruct inclusive; lia).
  split; reflexivity.
Qed.

Lemma date_range_reversed_empty_witness :
  (yields (date_range (Str (py "2020-01-03")) (Date (mkdate 2020 1 2)) true) = []
   /\ outcome (date_range (Str (py "2020-01-03")) (Date (mkdate 2020 1 2)) true) = None)
  /\ (yields (date_range (Str (py "2020-01-03")) (Date (mkdate 2019 1 2)) false) = []
      /\ outcome (date_range (Str (py "2020-01-03")) (Date (mkdate 2019 1 2)) false) = None).
Proof.
  split.
  - apply (date_range_reversed_empty _ _ (mkdate 2020 1 3) (mkdate 2020 1 2));
      [exact I | reflexivity | vm_compute; reflexivity | reflexivity | reflexivity].
  - apply (date_range_reversed_empty _ _ (mkdate 2020 1 3) (mkdate 2019 1 2));
      [exact I | reflexivity | vm_compute; reflexivity | reflexivity | reflexivity].
Defined.

(** C8: a ['yyyy-mm-dd'] string and the date it parses to are
    interchangeable as arguments of [date_range], in either position. *)
Theorem date_range_str_or_date s1 s2 d1 d2 inclusive :
  str_to_datetime_date s1 = Ok d1 -> str_to_datetime_date s2 = Ok d2 ->
  date_range (Str s1) (Str s2) inclusive
  = date_range (Date d1) (Date d2) inclusive
  /\ date_range (Str s1) (Date d2) inclusive
     = date_range (Date d1) (Date d2) inclusive
  /\ date_range (Date d1) (Str s2) inclusive
     = date_range (Date d1) (Date d2) inclusive.
Proof.
  intros E1 E2. unfold date_range, as_date. rewrite E1, E2. auto.
Qed.

Lemma date_range_str_or_date_witness :
  date_range (Str (py "2020-01-01")) (Str (py "2020-01-03")) true
  = date_range (Date (mkdate 2020 1 1)) (Date (mkdate 2020 1 3)) true
  /\ yields (date_range (Str (py "2020-01-01")) (Str (py "2020-01-03")) true)
     = [mkdate 2020 1 1; mkdate 2020 1 2; mkdate 2020 1 3].
Proof.
  split.
  - apply (date_range_str_or_date (py "2020-01-01") (py "2020-01-03"));
      vm_compute; reflexivity.
  - vm_compute. reflexivity.
Defined.

(** ** The gap-filling loop *)

Lemma value_or_null_loop_unfold a rest queryset date_attr value_attr :
  value_or_null_loop (Yield a rest) queryset date_attr value_attr
  = match lookup_value queryset date_attr value_attr a with
    | Ok v => Yield v (value_or_null_loop rest queryset date_attr value_attr)
    | Err e => Raise e
    end.
Proof.
  unfold lookup_value, date_query. cbn [value_or_null_loop].
  destruct (qs_filter queryset _) as [items|e]; [|reflexivity].
  destruct (count items =? 1); [|reflexivity].
  destruct (vars_getitem (first items) value_attr); reflexivity.
Qed.

(** The loop at the [i]-th date, once it gets there: either it yields the
    looked-up value as its own [i]-th element, or it stops there with the
    exception of the lookup. *)
Lemma value_or_null_loop_at queryset date_attr value_attr (dates : gen date) :
  forall (i : nat) (d : date),
    yields dates !! i = Some d ->
    let out := value_or_null_loop dates queryset date_attr value_attr in
    (i <= length (yields out))%nat ->
    match lookup_value queryset date_attr value_attr d with
    | Ok v => yields out !! i = Some v
    | Err e => length (yields out) = i /\ outcome out = Some e
    end.
Proof.
  induction dates as [| e |a rest IH]; intros i d Hd; try discriminate.
  cbv zeta. rewrite value_or_null_loop_unfold.
  destruct i as [|i]; cbn in Hd.
  - injection Hd as ->. intros _.
    destruct (lookup_value queryset date_attr value_attr d); cbn; auto.
  - specialize (IH i d Hd). cbv zeta in IH.
    destruct (lookup_value queryset date_attr value_attr a) as [v|e];
      cbn [yields length outcome]; intros Hlen; [|lia].
    specialize (IH ltac:(lia)).
    destruct (lookup_value queryset date_attr value_attr d) as [v'|e'].
    + exact IH.
    + destruct IH as [-> ?]. auto.
Qed.

Lemma value_or_null_loop_all queryset date_attr value_attr (dates : gen date) :
  Forall (fun d => exists v, lookup_value queryset date_attr value_attr d = Ok v)
         (yields dates) ->
  let out := value_or_null_loop dates queryset date_attr value_attr in
  Forall2 (fun d v => lookup_value queryset date_attr value_attr d = Ok v)
          (yields dates) (yields out)
  /\ outcome out = outcome dates.
Proof.
  induction dates as [| e |a rest IH]; cbn [yields]; intros H.
  - split; [constructor | reflexivity].
  - split; [constructor | reflexivity].
  - cbv zeta. rewrite value_or_null_loop_unfold.
    apply Forall_cons in H as [[v Hv] H]. rewrite Hv. cbn [yields outcome].
    destruct (IH H) as [IH1 IH2]. split; [now constructor | assumption].
Qed.

Lemma value_or_null_normalized start_date end_date queryset date_attr value_attr :
  value_or_null start_date end_date queryset date_attr value_attr
  = value_or_null_loop (date_range start_date end_date true)
      queryset date_attr value_attr.
Proof.
  unfold value_or_null, date_range.
  destruct (as_date start_date) as [s|]; [|reflexivity].
  destruct (as_date end_date) as [e|]; reflexivity.
Qed.

Lemma value_or_null_at start_date end_date queryset date_attr value_attr i d :
  yields (date_range start_date end_date true) !! i = Some d ->
  let out := value_or_null start_date end_date queryset date_attr value_attr in
  (i <= length (yields out))%nat ->
  match lookup_value queryset date_attr value_attr d with
  | Ok v => yields out !! i = Some v
  | Err e => length (yields out) = i /\ outcome out = Some e
  end.
Proof.
  intros Hd. cbv zeta. rewrite value_or_null_normalized.
  now apply value_or_null_loop_at.
Qed.


(** The loop gets to the [i]-th date when each of the [i] dates before it
    has produced a value. *)
Lemma value_or_null_loop_reaches queryset date_attr value_attr
    (dates : gen date) :
  forall (i : nat),
    (i <= length (yields dates))%nat ->
    Forall (fun d => exists v,
                lookup_value queryset date_attr value_attr d = Ok v)
           (take i (yields dates)) ->
    (i <= length
            (yields (value_or_null_loop dates queryset date_attr value_attr)))%nat.
Proof.
  induction dates as [| e |a rest IH]; intros i Hi HF;
    try (cbn in Hi |- *; lia).
  destruct i as [|i]; [lia|].
  cbn [yields take] in HF. apply Forall_cons in HF as [[v Hv] HF].
  rewrite value_or_null_loop_unfold, Hv. cbn [yields length] in Hi |- *.
  specialize (IH i ltac:(lia) HF). lia.
Qed.

(** A date whose turn of the loop fails is never passed: whatever the
    earlier dates do, the generator ends with an exception and has no value
    for that date or a later one. *)
Lemma value_or_null_loop_stops queryset date_attr value_attr
    (dates : gen date) :
  forall (i : nat) (d : date) e,
    yields dates !! i = Some d ->
    lookup_value queryset date_attr value_attr d = Err e ->
    let out := value_or_null_loop dates queryset date_attr value_attr in
    outcome out <> None /\ (length (yields out) <= i)%nat.
Proof.
  induction dates as [| e' |a rest IH]; intros i d e Hd He; try discriminate.
  cbv zeta. rewrite value_or_null_loop_unfold.
  destruct i as [|i]; cbn in Hd.
  - injection Hd as ->. rewrite He. cbn. split; [discriminate | lia].
  - destruct (lookup_value queryset date_attr value_attr a) as [v|e''].
    + cbn [outcome yields length].
      destruct (IH i d e Hd He) as [Ho Hl]. split; [assumption | lia].
    + cbn. split; [discriminate | lia].
Qed.

Lemma value_or_null_reaches
    start_date end_date queryset date_attr value_attr (i : nat) (d : date) :
  yields (date_range start_date end_date true) !! i = Some d ->
  Forall (fun d' => exists v,
              lookup_value queryset date_attr value_attr d' = Ok v)
         (take i (yields (date_range start_date end_date true))) ->
  (i <= length (yields (value_or_null start_date end_date queryset
                          date_attr value_attr)))%nat.
Proof.
  intros Hd HF. rewrite value_or_null_normalized.
  apply value_or_null_loop_reaches; [|assumption].
  apply lookup_lt_Some in Hd. lia.
Qed.

(** C9: when the lookup raises [e] for the [i]-th date [d] of the range,
    the generator ends with an exception and yields nothing for [d] or any
    later date, whatever happened before; and when each earlier date has
    produced a value, it ends with that very [e] after exactly those [i]
    values: the error is neither retried, nor swallowed, nor replaced by
    ["null"]. *)
Theorem value_or_null_lookup_error
    start_date end_date queryset date_attr value_attr (i : nat) (d : date) e :
  let dates := yields (date_range start_date end_date true) in
  let out := value_or_null start_date end_date queryset date_attr value_attr in
  dates !! i = Some d ->
  qs_filter queryset (date_query date_attr d) = Err e ->
  (outcome out <> None /\ (length (yields out) <= i)%nat)
  /\ (Forall (fun d' => exists v,
                  lookup_value queryset date_attr value_attr d' = Ok v)
             (take i dates) ->
      outcome out = Some e /\ length (yields out) = i).
Proof.
  intros dates out Hd Hq.
  assert (He : lookup_value queryset date_attr value_attr d = Err e)
    by (unfold lookup_value; now rewrite Hq).
  split.
  - unfold out. rewrite value_or_null_normalized.
    exact (value_or_null_loop_stops queryset date_attr value_attr _ i d e Hd He).
  - intros HF.
    pose proof (value_or_null_reaches start_date end_date queryset date_attr
                  value_attr i d Hd HF) as Hi.
    pose proof (value_or_null_at start_date end_date queryset date_attr
                  value_attr i d Hd Hi) as H.
    fold out in H. rewrite He in H. tauto.
Qed.

Lemma value_or_null_lookup_error_witness :
  let out :=
    value_or_null (Str (py "2020-01-01")) (Str (py "2020-01-03"))
      (failing_on_day "date" 2 (DatabaseError "connection lost"))
      "date" "value" in
  outcome out = Some (DatabaseError "connection lost")
  /\ length (yields out) = 1%nat.
Proof.
  apply (value_or_null_lookup_error
           (Str (py "2020-01-01")) (Str (py "2020-01-03"))
           (failing_on_day "date" 2 (DatabaseError "connection lost"))
           "date" "value" 1 (mkdate 2020 1 2));
    [vm_compute; reflexivity | vm_compute; reflexivity |].
  replace (take 1 (yields (date_range (Str (py "2020-01-01"))
                             (Str (py "2020-01-03")) true)))
    with [mkdate 2020 1 1] by (vm_compute; reflexivity).
  apply List.Forall_cons; [exists (PyStr "null"); vm_compute; reflexivity|].
  apply List.Forall_nil.
Defined.

(** C10: a lookup for the [i]-th date [d] of the range that returns two or
    more records never makes the generator yield a field of one of them:
    whatever is yielded at position [i] is the string ["null"]; and when
    each date before [d] has produced a value, the [i]-th value is there and
    is ["null"], as when the lookup returns no record: no exception. *)
Theorem value_or_null_ambiguous
    start_date end_date queryset date_attr value_attr (i : nat) (d : date)
    (items : list (gmap string pyval)) :
  let dates := yields (date_range start_date end_date true) in
  let out := value_or_null start_date end_date queryset date_attr value_attr in
  dates !! i = Some d ->
  qs_filter queryset (date_query date_attr d) = Ok items ->
  (2 <= length items)%nat ->
  (forall v, yields out !! i = Some v -> v = PyStr "null")
  /\ (Forall (fun d' => exists v,
                  lookup_value queryset date_attr value_attr d' = Ok v)
             (take i dates) ->
      yields out !! i = Some (PyStr "null")).
Proof.
  intros dates out Hd Hq Hn.
  assert (Hv : lookup_value queryset date_attr value_attr d = Ok (PyStr "null")).
  { unfold lookup_value, count. rewrite Hq.
    destruct (Z.eqb_spec (Z.of_nat (length items)) 1); [lia | reflexivity]. }
  assert (Hat : (i <= length (yields out))%nat ->
                yields out !! i = Some (PyStr "null")).
  { intros Hi.
    pose proof (value_or_null_at start_date end_date queryset date_attr
                  value_attr i d Hd Hi) as H.
    fold out in H. now rewrite Hv in H. }
  split.
  - intros v Hi. pose proof (lookup_lt_Some _ _ _ Hi) as Hlt.
    rewrite Hat in Hi by lia. congruence.
  - intros HF. apply Hat.
    exact (value_or_null_reaches start_date end_date queryset date_attr
             value_attr i d Hd HF).
Qed.

Lemma value_or_null_ambiguous_witness :
  yields (value_or_null (Str (py "2020-01-01")) (Str (py "2020-01-03"))
            jan_2_twice "date" "value") !! 1%nat
  = Some (PyStr "null").
Proof.
  apply (value_or_null_ambiguous
           (Str (py "2020-01-01")) (Str (py "2020-01-03")) jan_2_twice
           "date" "value" 1 (mkdate 2020 1 2) [jan_2_record; jan_2_record]);
    [vm_compute; reflexivity | vm_compute; reflexivity | simpl; lia |].
  replace (take 1 (yields (date_range (Str (py "2020-01-01"))
                             (Str (py "2020-01-03")) true)))
    with [mkdate 2020 1 1] by (vm_compute; reflexivity).
  apply List.Forall_cons; [exists (PyStr "null"); vm_compute; reflexivity|].
  apply List.Forall_nil.
Defined.

(** C6, as amended: [value_or_null] walks the inclusive range of the same
    two arguments; when the lookup of every date of the range produces a
    value, it yields exactly one value per date, in date order, and ends as
    the range does. *)
Theorem value_or_null_one_per_date
    start_date end_date queryset date_attr value_attr :
  let dates := date_range start_date end_date true in
  let out := value_or_null start_date end_date queryset date_attr value_attr in
  Forall (fun d => exists v, lookup_value queryset date_attr value_attr d = Ok v)
         (yields dates) ->
  Forall2 (fun d v => lookup_value queryset date_attr value_attr d = Ok v)
          (yields dates) (yields out)
  /\ length (yields out) = length (yields dates)
  /\ outcome out = outcome dates.
Proof.
  intros dates out H. unfold out. rewrite value_or_null_normalized.
  destruct (value_or_null_loop_all queryset date_attr value_attr dates H)
    as [H2 Ho].
  split; [assumption|]. split; [|assumption].
  symmetry. eapply Forall2_length. eassumption.
Qed.

Example value_or_null_jan_2 :
  value_or_null (Str (py "2020-01-01")) (Str (py "2020-01-03")) jan_2_only "date" "value"
  = Yield (PyStr "null") (Yield (PyInt 7) (Yield (PyStr "null") Done)).
Proof. vm_compute. reflexivity. Qed.


Lemma value_or_null_one_per_date_witness :
  let dates := date_range (Str (py "2020-01-01")) (Str (py "2020-01-03")) true in
  let out :=
    value_or_null (Str (py "2020-01-01")) (Str (py "2020-01-03"))
      jan_2_only "date" "value" in
  length (yields out) = length (yields dates)
  /\ outcome out = outcome dates.
Proof.
  apply (value_or_null_one_per_date
           (Str (py "2020-01-01")) (Str (py "2020-01-03")) jan_2_only "date" "value").
  replace (yields (date_range (Str (py "2020-01-01")) (Str (py "2020-01-03")) true))
    with [mkdate 2020 1 1; mkdate 2020 1 2; mkdate 2020 1 3]
    by (vm_compute; reflexivity).
  apply List.Forall_cons; [exists (PyStr "null"); vm_compute; reflexivity|].
  apply List.Forall_cons; [exists (PyInt 7); vm_compute; reflexivity|].
  apply List.Forall_cons; [exists (PyStr "null"); vm_compute; reflexivity|].
  apply List.Forall_nil.
Defined.

(** C6 as stated fails: a lookup that raises ends [value_or_null] before
    it has yielded a value for every date of the range. *)
Lemma value_or_null_length_counterexample :
  ~ (forall start_date end_date queryset date_attr value_attr,
        length (yields (value_or_null start_date end_date queryset
                          date_attr value_attr))
        = length (yields (date_range start_date end_date true))).
Proof.
  intros H.
  specialize (H (Str (py "2020-01-01")) (Str (py "2020-01-03"))
                (failing_queryset (DatabaseError "connection lost"))
                "date" "value").
  vm_compute in H. discriminate.
Qed.

(** C7 as stated fails: [strptime] accepts a month and a day written
    without a leading zero. *)
Lemma str_to_datetime_date_strict_counterexample :
  ~ (forall s, strict_yyyy_mm_dd s = false ->
               str_to_datetime_date s = Err ValueError).
Proof.
  intros H. specialize (H (py "2020-1-5") eq_refl).
  vm_compute in H. discriminate.
Qed.

Lemma py_int_err text e : py_int text = Err e -> e = ValueError.
Proof.
  unfold py_int. destruct (lstrip text); [congruence|].
  destruct (digits_value _ _); congruence.
Qed.

Lemma strptime_err s e : _strptime s = Err e -> e = ValueError.
Proof.
  unfold _strptime, group_int.
  destruct (re_match format_regex s) as [[found_dict end_]|]; [|congruence].
  destruct (negb _); [congruence|].
  destruct (found_dict !! "Y") as [Y|];
    [destruct (py_int Y) eqn:EY; [|apply py_int_err in EY; cbn; congruence]|];
  (destruct (found_dict !! "m") as [M|];
    [destruct (py_int M) eqn:EM; [|apply py_int_err in EM; cbn; congruence]|]);
  (destruct (found_dict !! "d") as [D|];
    [destruct (py_int D) eqn:ED; [|apply py_int_err in ED; cbn; congruence]|]);
  cbn [bind];
  match goal with
  | |- context [date_new ?y ?m ?d] =>
      destruct (date_new y m d) eqn:EN;
      [cbn; congruence | apply date_new_err in EN; cbn; congruence]
  end.
Qed.

(** C7, as amended: [str_to_datetime_date] fails with [ValueError] unless
    the string is four decimal digits, a hyphen, a month text, a hyphen and
    a day text, and the numbers they write are the year, month and day of
    an existing date, which it then returns. The four digits of the year may
    be decimal digits of any script; the month is [1] to [12] in ASCII, with
    or without a leading zero; the day is [1] to [31] with a leading zero, a
    leading space or neither, in ASCII but for the second digit of [10] to
    [29], which may be of any script. ["2020-13-01"] and ["2020-02-30"]
    fail. *)
Theorem str_to_datetime_date_accepts :
  (forall s,
      str_to_datetime_date s = Err ValueError
      \/ exists Y M D dt,
           s = Y ++ py "-" ++ M ++ py "-" ++ D
           /\ year_text Y = true /\ month_text M = true /\ day_text D = true
           /\ py_int Y = Ok (year dt) /\ py_int M = Ok (month dt)
           /\ py_int D = Ok (day dt)
           /\ valid_date dt = true
           /\ str_to_datetime_date s = Ok dt)
  /\ str_to_datetime_date (py "2020-13-01") = Err ValueError
  /\ str_to_datetime_date (py "2020-02-30") = Err ValueError.
Proof.
  split; [|split; vm_compute; reflexivity].
  intros s. unfold str_to_datetime_date, strptime_date.
  destruct (_strptime s) as [[[y m] d]|e] eqn:E.
  - apply strptime_ok_inv in E as (Y & M & D & -> & HY & HM & HD & EY & EM & ED & V).
    right. exists Y, M, D, (mkdate y m d). cbn [bind year month day].
    rewrite (date_new_valid y m d V). auto 10.
  - left. apply strptime_err in E as ->. reflexivity.
Qed.

(** ** More on date_range *)

(** Two lists of valid dates that both count the days from the same
    ordinal are the same list. *)
Lemma dates_by_ordinal_eq (base : Z) (l1 l2 : list date) :
  length l1 = length l2 ->
  (forall (i : nat) (d : date), l1 !! i = Some d ->
      valid_date d = true /\ toordinal d = base + Z.of_nat i) ->
  (forall (i : nat) (d : date), l2 !! i = Some d ->
      valid_date d = true /\ toordinal d = base + Z.of_nat i) ->
  l1 = l2.
Proof.
  intros Hlen H1 H2. apply list_eq. intros i.
  destruct (l1 !! i) as [d1|] eqn:E1, (l2 !! i) as [d2|] eqn:E2; trivial.
  - destruct (H1 i d1 E1) as [V1 O1], (H2 i d2 E2) as [V2 O2].
    f_equal. apply toordinal_inj; trivial. lia.
  - apply lookup_lt_Some in E1. apply lookup_ge_None in E2. lia.
  - apply lookup_ge_None in E1. apply lookup_lt_Some in E2. lia.
Qed.

Lemma date_range_resolved start_date end_date (inclusive : bool) s e :
  valid_spec start_date -> valid_spec end_date ->
  as_date start_date = Ok s -> as_date end_date = Ok e ->
  let g := date_range start_date end_date inclusive in
  valid_date s = true /\ valid_date e = true /\ outcome g = None
  /\ length (yields g)
     = Z.to_nat (date_sub_days e s + (if inclusive then 1 else 0))
  /\ forall (i : nat) (d : date), yields g !! i = Some d ->
       valid_date d = true /\ toordinal d = toordinal s + Z.of_nat i.
Proof.
  intros Vs Ve Es Ee g.
  pose proof (as_date_valid _ _ Vs Es) as Vs'.
  pose proof (as_date_valid _ _ Ve Ee) as Ve'.
  unfold g. rewrite (date_range_normalized _ _ _ s e Es Ee).
  split; [assumption|]. split; [assumption|].
  apply date_range_dates; assumption.
Qed.

(** X1: the [i]-th date of a range is [start_date + timedelta(i)], for
    every [i] below the number of days; there is no date at or beyond that
    count. *)
Theorem date_range_nth start_date end_date (inclusive : bool) s e (i : nat) :
  valid_spec start_date -> valid_spec end_date ->
  as_date start_date = Ok s -> as_date end_date = Ok e ->
  let n := date_sub_days e s + (if inclusive then 1 else 0) in
  let dates := yields (date_range start_date end_date inclusive) in
  (Z.of_nat i < n ->
   exists d, date_add s (Z.of_nat i) = Ok d /\ dates !! i = Some d)
  /\ (n <= Z.of_nat i -> dates !! i = None).
Proof.
  intros Vs Ve Es Ee n dates.
  destruct (date_range_resolved _ _ inclusive s e Vs Ve Es Ee)
    as (Vs' & Ve' & _ & Hl & Hi).
  fold dates in Hl, Hi. fold n in Hl. split.
  - intros Hlt.
    destruct (lookup_lt_is_Some_2 dates i ltac:(lia)) as [d Hd].
    destruct (Hi i d Hd) as [Vd Od]. pose proof (toordinal_range d Vd).
    destruct (date_add_spec s (Z.of_nat i) Vs' ltac:(lia) ltac:(lia))
      as (d' & E & Vd' & Od').
    exists d. split; [|assumption].
    rewrite E. f_equal. apply toordinal_inj; trivial. lia.
  - intros Hge. apply lookup_ge_None. lia.
Qed.

Lemma date_range_nth_witness :
  let dates :=
    yields (date_range (Str (py "2020-02-27")) (Date (mkdate 2020 3 1)) true) in
  (exists d, date_add (mkdate 2020 2 27) 2 = Ok d /\ dates !! 2%nat = Some d)
  /\ dates !! 4%nat = None.
Proof.
  split.
  - apply (proj1 (date_range_nth (Str (py "2020-02-27")) (Date (mkdate 2020 3 1))
                    true (mkdate 2020 2 27) (mkdate 2020 3 1) 2
                    I eq_refl ltac:(vm_compute; reflexivity) eq_refl)).
    vm_compute. reflexivity.
  - apply (proj2 (date_range_nth (Str (py "2020-02-27")) (Date (mkdate 2020 3 1))
                    true (mkdate 2020 2 27) (mkdate 2020 3 1) 4
                    I eq_refl ltac:(vm_compute; reflexivity) eq_refl)).
    vm_compute. discriminate.
Defined.

Lemma date_range_In start_date end_date (inclusive : bool) s e d :
  valid_spec start_date -> valid_spec end_date ->
  as_date start_date = Ok s -> as_date end_date = Ok e ->
  In d (yields (date_range start_date end_date inclusive))
  <-> valid_date d = true
      /\ toordinal s <= toordinal d
         < toordinal e + (if inclusive then 1 else 0).
Proof.
  intros Vs Ve Es Ee.
  destruct (date_range_resolved _ _ inclusive s e Vs Ve Es Ee)
    as (Vs' & Ve' & _ & Hl & Hi).
  unfold date_sub_days in Hl.
  set (dates := yields (date_range start_date end_date inclusive)) in *.
  rewrite <- list_elem_of_In, list_elem_of_lookup. split.
  - intros [i Hd]. destruct (Hi i d Hd) as [Vd Od].
    apply lookup_lt_Some in Hd. split; [assumption|]. lia.
  - intros [Vd Hr]. exists (Z.to_nat (toordinal d - toordinal s)).
    destruct (lookup_lt_is_Some_2 dates (Z.to_nat (toordinal d - toordinal s))
                ltac:(lia)) as [d' Hd'].
    destruct (Hi _ d' Hd') as [Vd' Od'].
    rewrite Hd'. f_equal. apply toordinal_inj; trivial. lia.
Qed.

(** X2: the inclusive range yields exactly the dates from [start_date] to
    [end_date], both included. *)
Theorem date_range_inclusive_members start_date end_date s e d :
  valid_spec start_date -> valid_spec end_date ->
  as_date start_date = Ok s -> as_date end_date = Ok e ->
  In d (yields (date_range start_date end_date true))
  <-> valid_date d = true /\ date_le s d = true /\ date_le d e = true.
Proof.
  intros Vs Ve Es Ee.
  pose proof (as_date_valid _ _ Vs Es) as Vs'.
  pose proof (as_date_valid _ _ Ve Ee) as Ve'.
  rewrite (date_range_In _ _ true s e d Vs Ve Es Ee). split.
  - intros [Vd Hr]. rewrite !date_le_ordinal by trivial. repeat split; trivial; lia.
  - intros (Vd & H1 & H2). rewrite date_le_ordinal in H1, H2 by trivial.
    split; [assumption | lia].
Qed.

Lemma date_range_inclusive_members_witness :
  In (mkdate 2020 2 29)
     (yields (date_range (Str (py "2020-02-27")) (Date (mkdate 2020 3 1)) true)).
Proof.
  apply (date_range_inclusive_members
           (Str (py "2020-02-27")) (Date (mkdate 2020 3 1))
           (mkdate 2020 2 27) (mkdate 2020 3 1) (mkdate 2020 2 29)
           I eq_refl ltac:(vm_compute; reflexivity) eq_refl).
  vm_compute. auto.
Defined.

(** X3: the exclusive range yields exactly the dates from [start_date]
    up to, and not including, [end_date]. *)
Theorem date_range_exclusive_members start_date end_date s e d :
  valid_spec start_date -> valid_spec end_date ->
  as_date start_date = Ok s -> as_date end_date = Ok e ->
  In d (yields (date_range start_date end_date false))
  <-> valid_date d = true /\ date_le s d = true /\ date_lt d e = true.
Proof.
  intros Vs Ve Es Ee.
  pose proof (as_date_valid _ _ Vs Es) as Vs'.
  pose proof (as_date_valid _ _ Ve Ee) as Ve'.
  rewrite (date_range_In _ _ false s e d Vs Ve Es Ee). split.
  - intros [Vd Hr]. rewrite date_le_ordinal, date_lt_ordinal by trivial.
    repeat split; trivial; lia.
  - intros (Vd & H1 & H2).
    rewrite date_le_ordinal in H1 by trivial.
    rewrite date_lt_ordinal in H2 by trivial.
    split; [assumption | lia].
Qed.

Lemma date_range_exclusive_members_witness :
  In (mkdate 2020 2 29)
     (yields (date_range (Str (py "2020-02-27")) (Date (mkdate 2020 3 1)) false)).
Proof.
  apply (date_range_exclusive_members
           (Str (py "2020-02-27")) (Date (mkdate 2020 3 1))
           (mkdate 2020 2 27) (mkdate 2020 3 1) (mkdate 2020 2 29)
           I eq_refl ltac:(vm_compute; reflexivity) eq_refl).
  vm_compute. auto.
Defined.

(** X4: for [start_date <= end_date], the inclusive range is the
    exclusive range followed by [end_date]. *)
Theorem date_range_inclusive_snoc start_date end_date s e :
  valid_spec start_date -> valid_spec end_date ->
  as_date start_date = Ok s -> as_date end_date = Ok e ->
  date_le s e = true ->
  yields (date_range start_date end_date true)
  = yields (date_range start_date end_date false) ++ [e].
Proof.
  intros Vs Ve Es Ee Hle.
  destruct (date_range_resolved _ _ true s e Vs Ve Es Ee)
    as (Vs' & Ve' & _ & Hl1 & Hi1).
  destruct (date_range_resolved _ _ false s e Vs Ve Es Ee)
    as (_ & _ & _ & Hl2 & Hi2).
  apply date_le_ordinal in Hle; trivial. unfold date_sub_days in *.
  apply (dates_by_ordinal_eq (toordinal s)); trivial.
  - rewrite length_app, Hl1, Hl2. cbn [length]. lia.
  - intros i d Hd.
    destruct (decide (i < length (yields (date_range start_date end_date false)))%nat)
      as [Hlt|Hge].
    + rewrite lookup_app_l in Hd by assumption. now apply Hi2.
    + rewrite lookup_app_r in Hd by lia.
      destruct (i - length _)%nat as [|k] eqn:Ek; [|destruct k; discriminate].
      injection Hd as <-. split; [assumption | lia].
Qed.

Lemma date_range_inclusive_snoc_witness :
  yields (date_range (Str (py "2020-02-27")) (Date (mkdate 2020 3 1)) true)
  = yields (date_range (Str (py "2020-02-27")) (Date (mkdate 2020 3 1)) false)
    ++ [mkdate 2020 3 1].
Proof.
  apply (date_range_inclusive_snoc
           (Str (py "2020-02-27")) (Date (mkdate 2020 3 1))
           (mkdate 2020 2 27) (mkdate 2020 3 1)
           I eq_refl ltac:(vm_compute; reflexivity) eq_refl eq_refl).
Defined.

(** X5: exclusive ranges chain: for [start <= mid <= end], the range
    from [start] to [end] is the range from [start] to [mid] followed by the
    range from [mid] to [end]. *)
Theorem date_range_exclusive_concat start_date mid_date end_date s m e :
  valid_spec start_date -> valid_spec mid_date -> valid_spec end_date ->
  as_date start_date = Ok s -> as_date mid_date = Ok m ->
  as_date end_date = Ok e ->
  date_le s m = true -> date_le m e = true ->
  yields (date_range start_date end_date false)
  = yields (date_range start_date mid_date false)
    ++ yields (date_range mid_date end_date false).
Proof.
  intros Vs Vm Ve Es Em Ee Hsm Hme.
  destruct (date_range_resolved _ _ false s e Vs Ve Es Ee)
    as (Vs' & Ve' & _ & Hl & Hi).
  destruct (date_range_resolved _ _ false s m Vs Vm Es Em)
    as (_ & Vm' & _ & Hl1 & Hi1).
  destruct (date_range_resolved _ _ false m e Vm Ve Em Ee)
    as (_ & _ & _ & Hl2 & Hi2).
  apply date_le_ordinal in Hsm; trivial.
  apply date_le_ordinal in Hme; trivial. unfold date_sub_days in *.
  apply (dates_by_ordinal_eq (toordinal s)); trivial.
  - rewrite length_app, Hl, Hl1, Hl2. lia.
  - intros i d Hd.
    destruct (decide (i < length (yields (date_range start_date mid_date false)))%nat)
      as [Hlt|Hge].
    + rewrite lookup_app_l in Hd by assumption. now apply Hi1.
    + rewrite lookup_app_r in Hd by lia.
      apply Hi2 in Hd as [Vd Od]. split; [assumption|]. lia.
Qed.

Lemma date_range_exclusive_concat_witness :
  yields (date_range (Str (py "2020-02-27")) (Date (mkdate 2020 3 2)) false)
  = yields (date_range (Str (py "2020-02-27")) (Str (py "2020-02-29")) false)
    ++ yields (date_range (Str (py "2020-02-29")) (Date (mkdate 2020 3 2)) false).
Proof.
  apply (date_range_exclusive_concat
           (Str (py "2020-02-27")) (Str (py "2020-02-29")) (Date (mkdate 2020 3 2))
           (mkdate 2020 2 27) (mkdate 2020 2 29) (mkdate 2020 3 2)
           I I eq_refl ltac:(vm_compute; reflexivity)
           ltac:(vm_compute; reflexivity) eq_refl eq_refl eq_refl).
Defined.

Lemma as_date_err x e : as_date x = Err e -> e = ValueError.
Proof.
  destruct x as [str|d]; cbn; [|discriminate].
  unfold str_to_datetime_date, strptime_date.
  destruct (_strptime str) as [[[y m] a]|e'] eqn:E; cbn.
  - apply date_new_err.
  - intros [= <-]. now apply strptime_err in E.
Qed.

(** X6: [date_range] either returns normally, when both arguments are
    dates or strings that parse, or raises [ValueError] before yielding
    anything, when a string does not parse. The addition in its loop never
    overflows. *)
Theorem date_range_outcome start_date end_date (inclusive : bool) :
  valid_spec start_date -> valid_spec end_date ->
  let g := date_range start_date end_date inclusive in
  ((exists s e, as_date start_date = Ok s /\ as_date end_date = Ok e)
   /\ outcome g = None)
  \/ ((as_date start_date = Err ValueError
       \/ as_date end_date = Err ValueError)
      /\ g = Raise ValueError).
Proof.
  intros Vs Ve g.
  destruct (as_date start_date) as [s|e1] eqn:Es.
  - destruct (as_date end_date) as [e|e2] eqn:Ee.
    + left. split; [eauto|].
      now destruct (date_range_resolved _ _ inclusive s e Vs Ve Es Ee)
        as (_ & _ & Ho & _).
    + right. pose proof (as_date_err _ _ Ee) as ->. split; [auto|].
      unfold g, date_range. now rewrite Es, Ee.
  - right. pose proof (as_date_err _ _ Es) as ->. split; [auto|].
    unfold g, date_range. now rewrite Es.
Qed.

Lemma date_range_outcome_witness :
  date_range (Date (mkdate 9999 12 30)) (Str (py "9999-12-31")) true
  = Yield (mkdate 9999 12 30) (Yield (mkdate 9999 12 31) Done)
  /\ date_range (Date (mkdate 2020 2 28)) (Str (py "2020-02-30")) true
     = Raise ValueError.
Proof.
  split; [vm_compute; reflexivity|].
  destruct (date_range_outcome (Date (mkdate 2020 2 28)) (Str (py "2020-02-30")) true
              eq_refl I) as [[(s & e & _ & H) _]|[_ H]].
  - vm_compute in H. discriminate.
  - exact H.
Defined.

(** ** More on value_or_null *)

Section GapFilling.

Variable queryset : QuerySet.
Variables date_attr value_attr : string.

Lemma lookup_value_ok_inv d v :
  lookup_value queryset date_attr value_attr d = Ok v ->
  (exists record,
      qs_filter queryset (date_query date_attr d) = Ok [record]
      /\ record !! value_attr = Some v)
  \/ (v = PyStr "null"
      /\ exists items,
           qs_filter queryset (date_query date_attr d) = Ok items
           /\ length items <> 1%nat).
Proof.
  unfold lookup_value, count.
  destruct (qs_filter queryset _) as [items|e]; [|discriminate].
  destruct (Z.eqb_spec (Z.of_nat (length items)) 1) as [H1|H1].
  - destruct items as [|record [|r2 items]]; try (cbn in H1; lia).
    cbn. destruct (record !! value_attr) as [x|] eqn:E; [|discriminate].
    intros [= <-]. left. eauto.
  - intros [= <-]. right. split; [reflexivity|].
    exists items. split; [reflexivity | lia].
Qed.

Lemma value_or_null_loop_prefix (dates : gen date) :
  forall (i : nat) (v : pyval),
    yields (value_or_null_loop dates queryset date_attr value_attr) !! i
    = Some v ->
    exists d, yields dates !! i = Some d
              /\ lookup_value queryset date_attr value_attr d = Ok v.
Proof.
  induction dates as [| e |a rest IH]; intros i v H; try discriminate.
  rewrite value_or_null_loop_unfold in H.
  destruct (lookup_value queryset date_attr value_attr a) as [x|e] eqn:E;
    [|discriminate].
  destruct i as [|i]; cbn in H |- *.
  - injection H as <-. eauto.
  - now apply IH.
Qed.

Lemma value_or_null_loop_normal (dates : gen date) :
  outcome (value_or_null_loop dates queryset date_attr value_attr) = None ->
  outcome dates = None
  /\ Forall2 (fun d v => lookup_value queryset date_attr value_attr d = Ok v)
       (yields dates)
       (yields (value_or_null_loop dates queryset date_attr value_attr)).
Proof.
  induction dates as [| e |a rest IH]; intros H.
  - split; [reflexivity | constructor].
  - discriminate.
  - rewrite value_or_null_loop_unfold in H |- *.
    destruct (lookup_value queryset date_attr value_attr a) as [x|e] eqn:E;
      [|discriminate].
    cbn in H |- *. destruct (IH H) as [Ho HF].
    split; [assumption | now constructor].
Qed.

End GapFilling.

Lemma value_or_null_loop_ext (qs1 qs2 : QuerySet) date_attr value_attr
    (dates : gen date) :
  (forall d, In d (yields dates) ->
             qs_filter qs1 (date_query date_attr d)
             = qs_filter qs2 (date_query date_attr d)) ->
  value_or_null_loop dates qs1 date_attr value_attr
  = value_or_null_loop dates qs2 date_attr value_attr.
Proof.
  induction dates as [| e |a rest IH]; intros H; try reflexivity.
  rewrite !value_or_null_loop_unfold. unfold lookup_value.
  rewrite (H a) by (cbn; auto). rewrite IH by (intros d Hd; apply H; cbn; auto).
  reflexivity.
Qed.

(** X7: every value [value_or_null] yields belongs to the date at the
    same position of the inclusive range, and is either the [value_attr]
    field of the single record found for that date, or the string ["null"]
    with a lookup that found no record or several. *)
Theorem value_or_null_values_origin
    start_date end_date queryset date_attr value_attr (i : nat) (v : pyval) :
  yields (value_or_null start_date end_date queryset date_attr value_attr) !! i
  = Some v ->
  exists d,
    yields (date_range start_date end_date true) !! i = Some d
    /\ ((exists record,
            qs_filter queryset (date_query date_attr d) = Ok [record]
            /\ record !! value_attr = Some v)
        \/ (v = PyStr "null"
            /\ exists items,
                 qs_filter queryset (date_query date_attr d) = Ok items
                 /\ length items <> 1%nat)).
Proof.
  rewrite value_or_null_normalized. intros H.
  apply value_or_null_loop_prefix in H as (d & Hd & Hl).
  exists d. split; [assumption|]. now apply lookup_value_ok_inv.
Qed.

Lemma value_or_null_values_origin_witness :
  exists d,
    yields (date_range (Str (py "2020-01-01")) (Str (py "2020-01-03")) true) !! 1%nat
    = Some d
    /\ ((exists record,
            qs_filter jan_2_only (date_query "date" d) = Ok [record]
            /\ record !! "value" = Some (PyInt 7))
        \/ (PyInt 7 = PyStr "null"
            /\ exists items,
                 qs_filter jan_2_only (date_query "date" d) = Ok items
                 /\ length items <> 1%nat)).
Proof.
  apply (value_or_null_values_origin
           (Str (py "2020-01-01")) (Str (py "2020-01-03")) jan_2_only "date" "value" 1).
  vm_compute. reflexivity.
Defined.

(** X8: when [value_or_null] returns normally, the range did too and
    there is exactly one value per date, in date order: a missing value is
    never silent. *)
Theorem value_or_null_no_silent_truncation
    start_date end_date queryset date_attr value_attr :
  let dates := date_range start_date end_date true in
  let out := value_or_null start_date end_date queryset date_attr value_attr in
  outcome out = None ->
  outcome dates = None
  /\ length (yields out) = length (yields dates)
  /\ Forall2 (fun d v => lookup_value queryset date_attr value_attr d = Ok v)
       (yields dates) (yields out).
Proof.
  intros dates out. unfold out. rewrite value_or_null_normalized. intros H.
  apply value_or_null_loop_normal in H as [Ho HF].
  split; [assumption|]. split; [|assumption].
  symmetry. eapply Forall2_length. eassumption.
Qed.

Lemma value_or_null_no_silent_truncation_witness :
  length (yields (value_or_null (Str (py "2020-01-01")) (Str (py "2020-01-03"))
                    jan_2_twice "date" "value"))
  = length (yields (date_range (Str (py "2020-01-01")) (Str (py "2020-01-03")) true)).
Proof.
  apply (value_or_null_no_silent_truncation
           (Str (py "2020-01-01")) (Str (py "2020-01-03")) jan_2_twice "date" "value").
  vm_compute. reflexivity.
Defined.

(** X9: once the loop reaches the [i]-th date [d], a single matching
    record without the [value_attr] field ends the generator with
    [KeyError(value_attr)] after the [i] values of the earlier dates. *)
Theorem value_or_null_missing_field
    start_date end_date queryset date_attr value_attr (i : nat) (d : date)
    (record : gmap string pyval) :
  yields (date_range start_date end_date true) !! i = Some d ->
  let out := value_or_null start_date end_date queryset date_attr value_attr in
  (i <= length (yields out))%nat ->
  qs_filter queryset (date_query date_attr d) = Ok [record] ->
  record !! value_attr = None ->
  outcome out = Some (KeyError value_attr) /\ length (yields out) = i.
Proof.
  intros Hd out Hi Hq Hv.
  pose proof (value_or_null_at start_date end_date queryset date_attr value_attr
                i d Hd Hi) as H.
  fold out in H. unfold lookup_value in H. rewrite Hq in H.
  change (count [record] =? 1) with true in H.
  unfold vars_getitem, first in H. cbn [head] in H.
  rewrite Hv in H. destruct H; auto.
Qed.

Lemma value_or_null_missing_field_witness :
  let out :=
    value_or_null (Str (py "2020-01-01")) (Str (py "2020-01-03"))
      jan_2_only "date" "trips" in
  outcome out = Some (KeyError "trips") /\ length (yields out) = 1%nat.
Proof.
  apply (value_or_null_missing_field
           (Str (py "2020-01-01")) (Str (py "2020-01-03")) jan_2_only "date" "trips"
           1 (mkdate 2020 1 2) jan_2_record);
    [vm_compute; reflexivity | vm_compute; lia | vm_compute; reflexivity
    | vm_compute; reflexivity].
Defined.

(** X10: [value_or_null] sees the queryset only through the year, month
    and day queries of the dates in the range: two querysets that answer
    these alike give the same generator. *)
Theorem value_or_null_queries_only_range
    start_date end_date (qs1 qs2 : QuerySet) date_attr value_attr :
  (forall d, In d (yields (date_range start_date end_date true)) ->
             qs_filter qs1 (date_query date_attr d)
             = qs_filter qs2 (date_query date_attr d)) ->
  value_or_null start_date end_date qs1 date_attr value_attr
  = value_or_null start_date end_date qs2 date_attr value_attr.
Proof.
  intros H. rewrite !value_or_null_normalized.
  now apply value_or_null_loop_ext.
Qed.

Lemma value_or_null_queries_only_range_witness :
  value_or_null (Str (py "2020-01-03")) (Str (py "2020-01-05")) jan_2_only "date" "value"
  = value_or_null (Str (py "2020-01-03")) (Str (py "2020-01-05"))
      (table_queryset "date" []) "date" "value".
Proof.
  apply (value_or_null_queries_only_range
           (Str (py "2020-01-03")) (Str (py "2020-01-05"))
           jan_2_only (table_queryset "date" []) "date" "value").
  replace (yields (date_range (Str (py "2020-01-03")) (Str (py "2020-01-05")) true))
    with [mkdate 2020 1 3; mkdate 2020 1 4; mkdate 2020 1 5]
    by (vm_compute; reflexivity).
  intros d [<-|[<-|[<-|[]]]]; vm_compute; reflexivity.
Defined.

Lemma app_string_inj_l (s a b : string) : s +:+ a = s +:+ b -> a = b.
Proof.
  induction s as [|c s IH]; [trivial|].
  change (String c (s +:+ a) = String c (s +:+ b) -> a = b).
  intros [= H]. auto.
Qed.

(** X12: the keyword dictionary of a date has exactly three entries,
    [date_attr__year], [date_attr__month] and [date_attr__day], holding the
    year, month and day; the three keys never collide, whatever
    [date_attr]. *)
Theorem date_query_keys (date_attr : string) (d : date) :
  date_query date_attr d !! (date_attr +:+ "__year") = Some (year d)
  /\ date_query date_attr d !! (date_attr +:+ "__month") = Some (month d)
  /\ date_query date_attr d !! (date_attr +:+ "__day") = Some (day d)
  /\ size (date_query date_attr d) = 3%nat.
Proof.
  assert (Nym : date_attr +:+ "__year" <> date_attr +:+ "__month")
    by (intros H%app_string_inj_l; discriminate).
  assert (Nyd : date_attr +:+ "__year" <> date_attr +:+ "__day")
    by (intros H%app_string_inj_l; discriminate).
  assert (Nmd : date_attr +:+ "__month" <> date_attr +:+ "__day")
    by (intros H%app_string_inj_l; discriminate).
  unfold date_query. repeat split.
  - rewrite !lookup_insert_ne by auto. apply lookup_insert_eq.
  - rewrite lookup_insert_ne by auto. apply lookup_insert_eq.
  - apply lookup_insert_eq.
  - rewrite !map_size_insert_None, map_size_empty; [reflexivity| | |].
    + apply lookup_empty.
    + rewrite lookup_insert_ne by auto. apply lookup_empty.
    + rewrite !lookup_insert_ne by auto. apply lookup_empty.
Qed.


(** ** More on str_to_datetime_date *)

Ltac eval_chr :=
  repeat match goal with
    | |- context [chr ?a] =>
        let v := eval vm_compute in (chr a) in change (chr a) with v
    | H : context [chr ?a] |- _ =>
        let v := eval vm_compute in (chr a) in change (chr a) with v in H
    | |- context [py ?a] =>
        let v := eval vm_compute in (py a) in change (py a) with v
    end.

Ltac absurd_char_facts :=
  match goal with
  | H : in_range _ _ ?c = true |- _ =>
      tryif is_var c then fail else (vm_compute in H; discriminate H)
  | H : is_digit ?c = true |- _ =>
      tryif is_var c then fail else (vm_compute in H; discriminate H)
  | H : ?a = ?b |- _ =>
      tryif is_var a then fail else
        tryif is_var b then fail else discriminate H
  | H : ?a <> ?a |- _ => destruct (H eq_refl)
  end.

Ltac run_matcher :=
  repeat (first
    [ progress cbn [rmatch re_match format_regex re_Y re_m re_d
                     app length take Nat.sub]
    | match goal with
      | H : ?b = true |- context [if ?b then _ else _] => rewrite H
      | |- context [if ?c =? ?a then _ else _] =>
          destruct (Z.eqb_spec c a); [subst|]; try absurd_char_facts
      | |- context [if in_range ?lo ?hi ?c then _ else _] =>
          tryif is_var c then destruct (in_range lo hi c) eqn:?
          else (let v := eval vm_compute in (in_range lo hi c) in
                change (in_range lo hi c) with v)
      | |- context [if is_digit ?c then _ else _] =>
          tryif is_var c then fail
          else (let v := eval vm_compute in (is_digit c) in
                change (is_digit c) with v)
      end ]).

Ltac split_shape H :=
  repeat match type of H with
    | (_ || _) = true => apply orb_prop in H; destruct H as [H|H]
    | (_ && _) = true =>
        let H' := fresh H in apply andb_prop in H; destruct H as [H H']
    end.

Lemma re_match_complete (Y M D : list Z) :
  year_text Y = true -> month_text M = true -> day_text D = true ->
  re_match format_regex (Y ++ py "-" ++ M ++ py "-" ++ D)
  = Some (<["d" := D]> (<["m" := M]> (<["Y" := Y]> ∅)),
          length (Y ++ py "-" ++ M ++ py "-" ++ D)).
Proof.
  intros HY HM HD.
  destruct Y as [|y1 [|y2 [|y3 [|y4 [|? ?]]]]]; try discriminate.
  cbn [year_text] in HY.
  apply andb_prop in HY as [HY Hy4]. apply andb_prop in HY as [HY Hy3].
  apply andb_prop in HY as [Hy1 Hy2].
  destruct M as [|m1 [|m2 [|? ?]]]; try discriminate;
    destruct D as [|d1 [|d2 [|? ?]]]; try discriminate;
    cbn [month_text day_text] in HM, HD.
  all: eval_chr; split_shape HM; split_shape HD;
    repeat match goal with
      | H : (_ =? _) = true |- _ => apply Z.eqb_eq in H; subst
      end.
  all: eval_chr; unfold format_regex, re_Y, re_m, re_d; eval_chr; run_matcher.
  all: reflexivity.
Qed.

Lemma strptime_complete (Y M D : list Z) (y m d : Z) :
  year_text Y = true -> month_text M = true -> day_text D = true ->
  py_int Y = Ok y -> py_int M = Ok m -> py_int D = Ok d ->
  valid_date (mkdate y m d) = true ->
  _strptime (Y ++ py "-" ++ M ++ py "-" ++ D) = Ok (y, m, d).
Proof.
  intros HY HM HD EY EM ED V. unfold _strptime.
  rewrite (re_match_complete Y M D HY HM HD), Nat.eqb_refl. cbn [negb].
  unfold group_int.
  rewrite lookup_insert_ne, lookup_insert_ne, lookup_insert_eq by done.
  rewrite lookup_insert_ne, lookup_insert_eq by done.
  rewrite lookup_insert_eq, EY, EM, ED. cbn [bind].
  now rewrite (date_new_valid y m d V).
Qed.

(** X13: [str_to_datetime_date] returns [dt] exactly for the strings made
    of a year text (four decimal digits of any script), a hyphen, a month
    text, a hyphen and a day text whose numbers are the fields of the
    existing date [dt]. *)
Theorem str_to_datetime_date_iff (s : list Z) (dt : date) :
  str_to_datetime_date s = Ok dt
  <-> exists Y M D,
        s = Y ++ py "-" ++ M ++ py "-" ++ D
        /\ year_text Y = true /\ month_text M = true /\ day_text D = true
        /\ py_int Y = Ok (year dt) /\ py_int M = Ok (month dt)
        /\ py_int D = Ok (day dt)
        /\ valid_date dt = true.
Proof.
  unfold str_to_datetime_date, strptime_date. split.
  - destruct (_strptime s) as [[[y m] d]|e] eqn:E; [|discriminate].
    cbn [bind]. intros H. apply date_new_ok in H as [-> V].
    apply strptime_ok_inv in E
      as (Y & M & D & -> & HY & HM & HD & EY & EM & ED & _).
    exists Y, M, D. auto 10.
  - intros (Y & M & D & -> & HY & HM & HD & EY & EM & ED & V).
    destruct dt as [y m d]. cbn [year month day] in *.
    rewrite (strptime_complete Y M D y m d) by assumption.
    cbn [bind]. now apply date_new_valid.
Qed.

Lemma digit_cases k :
  0 <= k <= 9 ->
  k = 0 \/ k = 1 \/ k = 2 \/ k = 3 \/ k = 4 \/ k = 5 \/ k = 6 \/ k = 7
  \/ k = 8 \/ k = 9.
Proof. lia. Qed.

Lemma digit_char_spec k :
  0 <= k <= 9 ->
  is_digit (digit_char k) = true /\ is_space (digit_char k) = false
  /\ decimal_value (digit_char k) = Some k.
Proof.
  intros H. apply digit_cases in H.
  repeat (destruct H as [H|H]; [subst; vm_compute; auto|]).
  subst; vm_compute; auto.
Qed.

Lemma digits_value_digit k (s : list Z) acc :
  0 <= k <= 9 ->
  digits_value (digit_char k :: s) acc = digits_value s (10 * acc + k).
Proof.
  intros H. destruct (digit_char_spec k H) as (_ & _ & Hv).
  cbn [digits_value]. now rewrite Hv.
Qed.

Lemma py_int_digits k (s : list Z) :
  0 <= k <= 9 ->
  py_int (digit_char k :: s) =
  match digits_value s k with Some z => Ok z | None => Err ValueError end.
Proof.
  intros H. destruct (digit_char_spec k H) as (_ & Hs & _).
  unfold py_int. cbn [lstrip]. rewrite Hs.
  now rewrite (digits_value_digit k s 0 H).
Qed.

Lemma zero_padded_4_spec n :
  0 <= n <= 9999 ->
  year_text (zero_padded_4 n) = true /\ py_int (zero_padded_4 n) = Ok n.
Proof.
  intros H. unfold zero_padded_4.
  assert (H1 : 0 <= n / 1000 <= 9) by (Z.div_mod_to_equations; lia).
  assert (H2 : 0 <= n / 100 mod 10 <= 9) by (Z.div_mod_to_equations; lia).
  assert (H3 : 0 <= n / 10 mod 10 <= 9) by (Z.div_mod_to_equations; lia).
  assert (H4 : 0 <= n mod 10 <= 9) by (Z.div_mod_to_equations; lia).
  split.
  - cbn [year_text].
    destruct (digit_char_spec _ H1) as (-> & _), (digit_char_spec _ H2) as (-> & _),
      (digit_char_spec _ H3) as (-> & _), (digit_char_spec _ H4) as (-> & _).
    reflexivity.
  - rewrite py_int_digits, !digits_value_digit by assumption.
    cbn [digits_value]. f_equal. Z.div_mod_to_equations; lia.
Qed.

Lemma zero_padded_2_int n :
  0 <= n <= 99 -> py_int (zero_padded_2 n) = Ok n.
Proof.
  intros H. unfold zero_padded_2.
  assert (H1 : 0 <= n / 10 <= 9) by (Z.div_mod_to_equations; lia).
  assert (H2 : 0 <= n mod 10 <= 9) by (Z.div_mod_to_equations; lia).
  rewrite py_int_digits, !digits_value_digit by assumption.
  cbn [digits_value]. f_equal. Z.div_mod_to_equations; lia.
Qed.

Lemma zero_padded_2_month m :
  1 <= m <= 12 -> month_text (zero_padded_2 m) = true.
Proof.
  intros H.
  assert (Hc : exists k, m = Z.of_nat k /\ (1 <= k <= 12)%nat)
    by (exists (Z.to_nat m); lia).
  destruct Hc as (k & -> & Hk).
  do 13 (destruct k as [|k]; [try lia; vm_compute; reflexivity|]). lia.
Qed.

Lemma zero_padded_2_day d :
  1 <= d <= 31 -> day_text (zero_padded_2 d) = true.
Proof.
  intros H.
  assert (Hc : exists k, d = Z.of_nat k /\ (1 <= k <= 31)%nat)
    by (exists (Z.to_nat d); lia).
  destruct Hc as (k & -> & Hk).
  do 32 (destruct k as [|k]; [try lia; vm_compute; reflexivity|]). lia.
Qed.

Lemma days_in_month_le_31 y m : 1 <= m <= 12 -> _days_in_month y m <= 31.
Proof.
  intros H. unfold _days_in_month.
  assert (Hc : exists k, m = Z.of_nat k /\ (1 <= k <= 12)%nat)
    by (exists (Z.to_nat m); lia).
  destruct Hc as (k & -> & Hk).
  destruct (_is_leap y);
    do 13 (destruct k as [|k]; [try lia; vm_compute; discriminate|]); lia.
Qed.

Lemma as_date_isoformat d :
  valid_date d = true -> as_date (Str (isoformat d)) = Ok d.
Proof.
  intros V. pose proof V as V'. apply valid_date_spec in V' as (Hy & Hm & Hd).
  pose proof (days_in_month_le_31 (year d) (month d) Hm).
  destruct (zero_padded_4_spec (year d) ltac:(lia)) as [HY EY].
  unfold as_date, str_to_datetime_date, strptime_date, isoformat.
  destruct d as [y m a]. cbn [year month day] in *.
  rewrite (strptime_complete _ _ _ y m a HY
             (zero_padded_2_month m Hm) (zero_padded_2_day a ltac:(lia))
             EY (zero_padded_2_int m ltac:(lia)) (zero_padded_2_int a ltac:(lia))
             V).
  cbn [bind]. now apply date_new_valid.
Qed.

(** X14: the zero-padded [yyyy-mm-dd] text of an existing date parses
    back to that date. *)
Theorem str_to_datetime_date_isoformat (d : date) :
  valid_date d = true -> str_to_datetime_date (isoformat d) = Ok d.
Proof. intros V. exact (as_date_isoformat d V). Qed.

Lemma str_to_datetime_date_isoformat_witness :
  isoformat (mkdate 2020 2 29) = py "2020-02-29"
  /\ str_to_datetime_date (isoformat (mkdate 2020 2 29)) = Ok (mkdate 2020 2 29).
Proof.
  split; [vm_compute; reflexivity|].
  apply (str_to_datetime_date_isoformat (mkdate 2020 2 29)). reflexivity.
Defined.


Lemma plain_2_int n : 1 <= n <= 99 -> py_int (plain_2 n) = Ok n.
Proof.
  intros H. unfold plain_2. destruct (Z.ltb_spec n 10).
  - rewrite py_int_digits by lia. reflexivity.
  - apply zero_padded_2_int. lia.
Qed.

Lemma plain_2_month m : 1 <= m <= 12 -> month_text (plain_2 m) = true.
Proof.
  intros H.
  assert (Hc : exists k, m = Z.of_nat k /\ (1 <= k <= 12)%nat)
    by (exists (Z.to_nat m); lia).
  destruct Hc as (k & -> & Hk).
  do 13 (destruct k as [|k]; [try lia; vm_compute; reflexivity|]). lia.
Qed.

Lemma plain_2_day d : 1 <= d <= 31 -> day_text (plain_2 d) = true.
Proof.
  intros H.
  assert (Hc : exists k, d = Z.of_nat k /\ (1 <= k <= 31)%nat)
    by (exists (Z.to_nat d); lia).
  destruct Hc as (k & -> & Hk).
  do 32 (destruct k as [|k]; [try lia; vm_compute; reflexivity|]). lia.
Qed.

(** X15: the text of an existing date with month and day written
    without leading zeros parses to that date too. *)
Theorem str_to_datetime_date_unpadded (d : date) :
  valid_date d = true ->
  str_to_datetime_date
    (zero_padded_4 (year d) ++ py "-" ++ plain_2 (month d)
     ++ py "-" ++ plain_2 (day d))
  = Ok d.
Proof.
  intros V. pose proof V as V'. apply valid_date_spec in V' as (Hy & Hm & Hd).
  pose proof (days_in_month_le_31 (year d) (month d) Hm).
  destruct (zero_padded_4_spec (year d) ltac:(lia)) as [HY EY].
  unfold str_to_datetime_date, strptime_date.
  destruct d as [y m a]. cbn [year month day] in *.
  rewrite (strptime_complete _ _ _ y m a HY
             (plain_2_month m Hm) (plain_2_day a ltac:(lia))
             EY (plain_2_int m ltac:(lia)) (plain_2_int a ltac:(lia)) V).
  cbn [bind]. now apply date_new_valid.
Qed.

Lemma str_to_datetime_date_unpadded_witness :
  zero_padded_4 2020 ++ py "-" ++ plain_2 1 ++ py "-" ++ plain_2 15
  = py "2020-1-15"
  /\ str_to_datetime_date
       (zero_padded_4 2020 ++ py "-" ++ plain_2 1 ++ py "-" ++ plain_2 15)
     = Ok (mkdate 2020 1 15).
Proof.
  split; [vm_compute; reflexivity|].
  apply (str_to_datetime_date_unpadded (mkdate 2020 1 15)). reflexivity.
Defined.

(** X16: for existing dates, passing the [yyyy-mm-dd] texts instead of
    the dates changes neither [date_range] nor [value_or_null]. *)
Theorem generators_accept_isoformat (s e : date) (inclusive : bool)
    queryset date_attr value_attr :
  valid_date s = true -> valid_date e = true ->
  date_range (Str (isoformat s)) (Str (isoformat e)) inclusive
  = date_range (Date s) (Date e) inclusive
  /\ value_or_null (Str (isoformat s)) (Str (isoformat e))
       queryset date_attr value_attr
     = value_or_null (Date s) (Date e) queryset date_attr value_attr.
Proof.
  intros Vs Ve. unfold date_range, value_or_null.
  rewrite (as_date_isoformat s Vs), (as_date_isoformat e Ve). auto.
Qed.

Lemma generators_accept_isoformat_witness :
  date_range (Str (isoformat (mkdate 2020 2 27)))
             (Str (isoformat (mkdate 2020 3 1))) true
  = date_range (Date (mkdate 2020 2 27)) (Date (mkdate 2020 3 1)) true.
Proof.
  apply (generators_accept_isoformat (mkdate 2020 2 27) (mkdate 2020 3 1) true
           jan_2_only "date" "value" eq_refl eq_refl).
Defined.

Lemma gen_done {A : Type} (g : gen A) :
  yields g = [] -> outcome g = None -> g = Done.
Proof. destruct g; [reflexivity | discriminate | discriminate]. Qed.

(** X17: when [end_date] is strictly before [start_date],
    [value_or_null] yields nothing and returns normally, whatever the
    queryset does. *)
Theorem value_or_null_reversed_range
    start_date end_date s e queryset date_attr value_attr :
  valid_spec start_date -> valid_spec end_date ->
  as_date start_date = Ok s -> as_date end_date = Ok e ->
  date_lt e s = true ->
  value_or_null start_date end_date queryset date_attr value_attr = Done.
Proof.
  intros Vs Ve Es Ee Hlt. rewrite value_or_null_normalized.
  destruct (date_range_resolved _ _ true s e Vs Ve Es Ee)
    as (Vs' & Ve' & Ho & Hl & _).
  apply date_lt_ordinal in Hlt; trivial. unfold date_sub_days in Hl.
  rewrite (gen_done (date_range start_date end_date true)); trivial.
  apply nil_length_inv. lia.
Qed.

Lemma value_or_null_reversed_range_witness :
  value_or_null (Str (py "2020-01-03")) (Date (mkdate 2020 1 1))
    (failing_queryset (DatabaseError "connection lost")) "date" "value"
  = Done.
Proof.
  apply (value_or_null_reversed_range
           (Str (py "2020-01-03")) (Date (mkdate 2020 1 1))
           (mkdate 2020 1 3) (mkdate 2020 1 1));
    [exact I | reflexivity | vm_compute; reflexivity | reflexivity | reflexivity].
Defined.

(** X18: a start or end string that does not parse makes [date_range]
    and [value_or_null] raise [ValueError] at once: no date is yielded and
    the queryset is not consulted. *)
Theorem generators_reject_bad_string
    start_date end_date (inclusive : bool) queryset date_attr value_attr :
  (forall s, as_date start_date <> Ok s) \/ (forall e, as_date end_date <> Ok e) ->
  date_range start_date end_date inclusive = Raise ValueError
  /\ value_or_null start_date end_date queryset date_attr value_attr
     = Raise ValueError.
Proof.
  unfold date_range, value_or_null. intros [H|H].
  - destruct (as_date start_date) as [s|e1] eqn:Es; [now destruct (H s)|].
    apply as_date_err in Es as ->. auto.
  - destruct (as_date start_date) as [s|e1] eqn:Es.
    + destruct (as_date end_date) as [e|e2] eqn:Ee; [now destruct (H e)|].
      apply as_date_err in Ee as ->. auto.
    + apply as_date_err in Es as ->. auto.
Qed.

Lemma generators_reject_bad_string_witness :
  date_range (Date (mkdate 2020 1 1)) (Str (py "2020-02-30")) true = Raise ValueError
  /\ value_or_null (Date (mkdate 2020 1 1)) (Str (py "2020-02-30"))
       jan_2_only "date" "value"
     = Raise ValueError.
Proof.
  apply (generators_reject_bad_string
           (Date (mkdate 2020 1 1)) (Str (py "2020-02-30")) true
           jan_2_only "date" "value").
  right. intros e H. vm_compute in H. discriminate.
Defined.
